(** * Marketplace catalog scripts: a shallow embedding

    Two scripts of [ecosystem/marketplace/scripts] are embedded here:

    - [generate-catalog-from-releases.py] ([Module Catalog]),
    - [convert-plugin-manifest.py] ([Module Manifest]).

    Both manipulate the values produced by [json.loads] and [yaml.safe_load],
    so the embedding starts with a small model of these values and of the
    [str] and [dict] methods the scripts call ([Module Py]).  Text is
    modelled by [string]; the one method that depends on the alphabet,
    [str.title], is written out for ASCII letters. *)

From Stdlib Require Import String Ascii List ZArith Bool Lia.
Import ListNotations.
Open Scope string_scope.

(* ================================================================= *)
(** ** Python values, exceptions and the methods the scripts call *)

Module Py.

(** What [json.loads] / [yaml.safe_load] can return, as far as the scripts
    look at it.  A [dict] keeps its insertion order. *)
#[warnings="-register-all"]
Inductive pyval : Type :=
| PNone
| PBool (b : bool)
| PInt (z : Z)
| PStr (s : string)
| PList (l : list pyval)
| PDict (d : list (string * pyval)).

Inductive exn : Type :=
| KeyError (key : string)
| TypeError (msg : string)
| AttributeError (msg : string)
| ValueError (msg : string)
| IndexError (msg : string)
| Exception (msg : string).

Inductive result (A : Type) : Type :=
| Ok (a : A)
| Raise (e : exn).
Arguments Ok {A} a.
Arguments Raise {A} e.

Definition bind {A B : Type} (m : result A) (k : A -> result B) : result B :=
  match m with
  | Ok a => k a
  | Raise e => Raise e
  end.

Notation "x <- m ;; k" := (bind m (fun x => k))
  (at level 61, m at next level, right associativity).

(** What a script leaves behind when it ends: the text printed on each
    stream and the exit status. *)
Record Outcome : Type := {
  printed_stdout : string;
  printed_stderr : string;
  exit_code : Z
}.

(** [str(e)] *)
Definition exn_str (e : exn) : string :=
  match e with
  | KeyError key => "'" ++ key ++ "'"
  | TypeError msg | AttributeError msg | ValueError msg | IndexError msg
  | Exception msg => msg
  end.

Definition type_name (v : pyval) : string :=
  match v with
  | PNone => "NoneType"
  | PBool _ => "bool"
  | PInt _ => "int"
  | PStr _ => "str"
  | PList _ => "list"
  | PDict _ => "dict"
  end.

Definition no_attribute {A : Type} (v : pyval) (attr : string) : result A :=
  Raise (AttributeError
           ("'" ++ type_name v ++ "' object has no attribute '" ++ attr ++ "'")).

(** [bool(v)] *)
Definition truthy (v : pyval) : bool :=
  match v with
  | PNone => false
  | PBool b => b
  | PInt z => negb (z =? 0)%Z
  | PStr s => negb (s =? "")
  | PList l => match l with [] => false | _ => true end
  | PDict d => match d with [] => false | _ => true end
  end.

(** *** dict *)

Fixpoint dict_get (d : list (string * pyval)) (key : string) : option pyval :=
  match d with
  | [] => None
  | (k, v) :: d' => if k =? key then Some v else dict_get d' key
  end.

(** [d[key] = v]: an existing key keeps its position. *)
Fixpoint dict_set (d : list (string * pyval)) (key : string) (v : pyval)
  : list (string * pyval) :=
  match d with
  | [] => [(key, v)]
  | (k, w) :: d' =>
      if k =? key then (key, v) :: d' else (k, w) :: dict_set d' key v
  end.

(** [o[key]] with a [str] key *)
Definition getitem (o : pyval) (key : string) : result pyval :=
  match o with
  | PDict d =>
      match dict_get d key with
      | Some v => Ok v
      | None => Raise (KeyError key)
      end
  | PList _ => Raise (TypeError "list indices must be integers or slices, not str")
  | PStr _ => Raise (TypeError "string indices must be integers, not 'str'")
  | _ => Raise (TypeError ("'" ++ type_name o ++ "' object is not subscriptable"))
  end.

(** [o.get(key, default)] *)
Definition get (o : pyval) (key : string) (default : pyval) : result pyval :=
  match o with
  | PDict d =>
      match dict_get d key with
      | Some v => Ok v
      | None => Ok default
      end
  | _ => no_attribute o "get"
  end.

(** [for x in o] *)
Definition iter (o : pyval) : result (list pyval) :=
  match o with
  | PList l => Ok l
  | PDict d => Ok (map (fun kv => PStr (fst kv)) d)
  | PStr s => Ok (map (fun c => PStr (String c "")) (list_ascii_of_string s))
  | _ => Raise (TypeError ("'" ++ type_name o ++ "' object is not iterable"))
  end.

(** [l[i]] on a list *)
Definition list_getitem {A : Type} (l : list A) (i : nat) : result A :=
  match nth_error l i with
  | Some x => Ok x
  | None => Raise (IndexError "list index out of range")
  end.

(** *** str *)

Definition newline : string := String "010"%char "".

Fixpoint str_startswith (s p : string) {struct p} : bool :=
  match p, s with
  | "", _ => true
  | String _ _, "" => false
  | String a p', String b s' => (a =? b)%char && str_startswith s' p'
  end.

Fixpoint str_endswith (s suffix : string) : bool :=
  (s =? suffix) ||
  match s with
  | "" => false
  | String _ s' => str_endswith s' suffix
  end.

(** [sub in s] *)
Fixpoint str_contains (sub s : string) : bool :=
  str_startswith s sub ||
  match s with
  | "" => false
  | String _ s' => str_contains sub s'
  end.

Fixpoint char_in (c : ascii) (chars : string) : bool :=
  match chars with
  | "" => false
  | String a chars' => (a =? c)%char || char_in c chars'
  end.

(** [s.lstrip(chars)] *)
Fixpoint str_lstrip (s chars : string) : string :=
  match s with
  | "" => ""
  | String c s' => if char_in c chars then str_lstrip s' chars else s
  end.

Definition cons_char (c : ascii) (pieces : list string) : list string :=
  match pieces with
  | [] => [String c ""]
  | p :: ps => String c p :: ps
  end.

(** Scan for [sep] from the left; [skip] counts the characters of a
    separator just found that are still to be passed over. *)
Fixpoint split_from (sep : string) (skip : nat) (s : string) : list string :=
  match s with
  | "" => [""]
  | String c s' =>
      match skip with
      | S k => split_from sep k s'
      | O =>
          if str_startswith s sep
          then "" :: split_from sep (String.length sep - 1) s'
          else cons_char c (split_from sep 0 s')
      end
  end.

(** [s.split(sep)] *)
Definition str_split (s sep : string) : result (list string) :=
  match sep with
  | "" => Raise (ValueError "empty separator")
  | _ => Ok (split_from sep 0 s)
  end.

Fixpoint replace_from (old new : string) (skip : nat) (s : string) : string :=
  match s with
  | "" => ""
  | String c s' =>
      match skip with
      | S k => replace_from old new k s'
      | O =>
          if str_startswith s old
          then new ++ replace_from old new (String.length old - 1) s'
          else String c (replace_from old new 0 s')
      end
  end.

Fixpoint intersperse (new s : string) : string :=
  match s with
  | "" => ""
  | String c s' => String c (new ++ intersperse new s')
  end.

(** [s.replace(old, new)] *)
Definition str_replace (s old new : string) : string :=
  match old with
  | "" => new ++ intersperse new s
  | _ => replace_from old new 0 s
  end.

Definition is_upper (c : ascii) : bool :=
  let n := nat_of_ascii c in ((65 <=? n) && (n <=? 90))%nat.

Definition is_lower (c : ascii) : bool :=
  let n := nat_of_ascii c in ((97 <=? n) && (n <=? 122))%nat.

Definition is_cased (c : ascii) : bool := is_upper c || is_lower c.

Definition to_upper (c : ascii) : ascii :=
  if is_lower c then ascii_of_nat (nat_of_ascii c - 32) else c.

Definition to_lower (c : ascii) : ascii :=
  if is_upper c then ascii_of_nat (nat_of_ascii c + 32) else c.

Fixpoint title_from (previous_is_cased : bool) (s : string) : string :=
  match s with
  | "" => ""
  | String c s' =>
      String (if previous_is_cased then to_lower c else to_upper c)
             (title_from (is_cased c) s')
  end.

(** [s.title()] *)
Definition str_title (s : string) : string := title_from false s.

(** The methods above, called on a value that may not be a [str]. *)

Definition startswith (o : pyval) (p : string) : result bool :=
  match o with
  | PStr s => Ok (str_startswith s p)
  | _ => no_attribute o "startswith"
  end.

Definition split (o : pyval) (sep : string) : result (list string) :=
  match o with
  | PStr s => str_split s sep
  | _ => no_attribute o "split"
  end.

Definition replace (o : pyval) (old new : string) : result string :=
  match o with
  | PStr s => Ok (str_replace s old new)
  | _ => no_attribute o "replace"
  end.

End Py.

(* ================================================================= *)
(** ** generate-catalog-from-releases.py *)

Module Catalog.
Import Py.

(** What [subprocess.run(cmd, capture_output=True, text=True)] returns. *)
Record CompletedProcess : Type := {
  returncode : Z;
  stdout : string;
  stderr : string
}.

Definition platforms : list string :=
  ["darwin-amd64"; "darwin-arm64"; "linux-amd64"; "linux-arm64"].

(** The dict literal assigned to [downloads[platform]]. *)
Definition download_entry (asset : pyval) : result pyval :=
  url <- getitem asset "url";;
  checksumUrl <- replace url ".plugin" ".plugin.sha256";;
  Ok (PDict [("url", url); ("checksumUrl", PStr checksumUrl)]).

(** [for platform in [...]: if platform in name: downloads[platform] = ...] *)
Fixpoint scan_platforms (asset : pyval) (name : string) (keys : list string)
         (downloads : list (string * pyval)) : result (list (string * pyval)) :=
  match keys with
  | [] => Ok downloads
  | platform :: keys' =>
      if str_contains platform name
      then entry <- download_entry asset;;
           scan_platforms asset name keys' (dict_set downloads platform entry)
      else scan_platforms asset name keys' downloads
  end.

(** [for asset in assets: ...] *)
Fixpoint scan_assets (assets : list pyval) (downloads : list (string * pyval))
  : result (list (string * pyval)) :=
  match assets with
  | [] => Ok downloads
  | asset :: assets' =>
      name <- getitem asset "name";;
      match name with
      | PStr n =>
          if str_endswith n ".plugin"
          then downloads' <- scan_platforms asset n platforms downloads;;
               scan_assets assets' downloads'
          else scan_assets assets' downloads
      | _ => no_attribute name "endswith"
      end
  end.

(** The conditional expression stored under ["description"]. *)
Definition description_of (release : pyval) : result pyval :=
  body <- get release "body" PNone;;
  if truthy body
  then body' <- get release "body" (PStr "");;
       lines <- split body' newline;;
       first <- list_getitem lines 0;;
       Ok (PStr first)
  else Ok (PStr "").

(** Returns [PNone] where the script returns [None]. *)
Definition parse_plugin_release (release : pyval) : result pyval :=
  tag <- getitem release "tagName";;
  parts <- split tag "-";;
  if (List.length parts <? 3)%nat then Ok PNone
  else
    plugin_id <- list_getitem parts 1;;
    part2 <- list_getitem parts 2;;
    let version := str_lstrip part2 "v" in
    assets <- get release "assets" (PList []);;
    items <- iter assets;;
    downloads <- scan_assets items [];;
    if negb (truthy (PDict downloads)) then Ok PNone
    else
      description <- description_of release;;
      publishedAt <- get release "publishedAt" (PStr "");;
      Ok (PDict
            [("id", PStr plugin_id);
             ("name", PStr (str_title (str_replace plugin_id "-" " ")));
             ("version", PStr version);
             ("official", PBool true);
             ("downloads", PDict downloads);
             ("metadata", PDict [("description", description);
                                 ("publishedAt", publishedAt)])]).

(** The filter loop of [get_plugin_releases]. *)
Fixpoint filter_releases (releases plugin_releases : list pyval)
  : result (list pyval) :=
  match releases with
  | [] => Ok plugin_releases
  | release :: releases' =>
      tag <- getitem release "tagName";;
      is_plugin <- startswith tag "plugin-";;
      if is_plugin
      then filter_releases releases' (plugin_releases ++ [release])
      else filter_releases releases' plugin_releases
  end.

(** The parse loop of [generate_catalog]. *)
Fixpoint collect_plugins (releases plugins : list pyval) : result (list pyval) :=
  match releases with
  | [] => Ok plugins
  | release :: releases' =>
      plugin <- parse_plugin_release release;;
      if truthy plugin
      then collect_plugins releases' (plugins ++ [plugin])
      else collect_plugins releases' plugins
  end.

Definition baseUrl : string :=
  "https://github.com/blackhole-pro/blackhole/releases/download".

Section Collaborators.

(** [json.loads] and [json.dumps(_, indent=2)] *)
Variable json_loads : string -> result pyval.
Variable json_dumps : pyval -> string.

(** [gh] is the outcome of running [gh release list ...]: the completed
    process, or the exception [subprocess.run] raised. *)
Definition get_plugin_releases (gh : result CompletedProcess)
  : result (list pyval) :=
  result_ <- gh;;
  if negb (returncode result_ =? 0)%Z
  then Raise (Exception ("Failed to get releases: " ++ stderr result_))
  else
    releases <- json_loads (stdout result_);;
    items <- iter releases;;
    filter_releases items [].

(** [now] is [datetime.utcnow().isoformat()]. *)
Definition generate_catalog (gh : result CompletedProcess) (now : string)
  : result pyval :=
  releases <- get_plugin_releases gh;;
  plugins <- collect_plugins releases [];;
  Ok (PDict [("version", PStr "1.0");
             ("updated", PStr (now ++ "Z"));
             ("baseUrl", PStr baseUrl);
             ("plugins", PList plugins)]).

(** The [__main__] block; [print] ends its line with a newline and, with
    no [file=] argument, writes to standard output. *)
Definition main (gh : result CompletedProcess) (now : string) : Outcome :=
  match generate_catalog gh now with
  | Ok catalog =>
      {| printed_stdout := json_dumps catalog ++ newline;
         printed_stderr := "";
         exit_code := 0 |}
  | Raise e =>
      {| printed_stdout := "Error: " ++ exn_str e ++ newline;
         printed_stderr := "";
         exit_code := 1 |}
  end.

End Collaborators.

End Catalog.

(* ================================================================= *)
(** ** convert-plugin-manifest.py *)

Module Manifest.
Import Py.

Section Collaborators.

(** [open(path)] followed by [yaml.safe_load], the formatting of a value
    inside an f-string, and [json.dumps(_, indent=2)]. *)
Variable load_yaml : string -> result pyval.
Variable format : pyval -> string.
Variable json_dumps : pyval -> string.

(** [now] is [datetime.utcnow().isoformat()]. *)
Definition convert_manifest (manifest_path : string) (now : string)
  : result pyval :=
  manifest <- load_yaml manifest_path;;
  metadata <- get manifest "metadata" (PDict []);;
  spec <- get manifest "spec" (PDict []);;
  id <- get metadata "name" PNone;;
  name <- get spec "displayName" id;;
  version <- get spec "version" PNone;;
  description <- get spec "description" (PStr "");;
  category <- get spec "category" (PStr "uncategorized");;
  author <- get spec "author" (PDict []);;
  license <- get spec "license" (PStr "MIT");;
  repository <-
    get spec "repository" (PStr "https://github.com/blackhole-pro/blackhole");;
  documentation <- get spec "documentation" (PStr "");;
  keywords <- get spec "keywords" (PList []);;
  requirements <- get spec "requirements" (PDict []);;
  capabilities <- get spec "capabilities" (PList []);;
  resources <- get spec "resources" (PDict []);;
  Ok (PDict
        [("id", id);
         ("name", name);
         ("version", version);
         ("description", description);
         ("category", category);
         ("author", author);
         ("license", license);
         ("source",
           PDict [("type", PStr "release");
                  ("url",
                    PStr ("https://github.com/blackhole-pro/blackhole/releases/tag/plugin-"
                            ++ format id ++ "-v" ++ format version))]);
         ("repository", repository);
         ("documentation", documentation);
         ("keywords", keywords);
         ("requirements", requirements);
         ("capabilities", capabilities);
         ("resources", resources);
         ("stats", PDict [("updated", PStr (now ++ "Z"))])]).

Definition main (argv : list string) (now : string) : Outcome :=
  match argv with
  | [_; manifest_path] =>
      match convert_manifest manifest_path now with
      | Ok result_ =>
          {| printed_stdout := json_dumps result_ ++ newline;
             printed_stderr := "";
             exit_code := 0 |}
      | Raise e =>
          {| printed_stdout := "";
             printed_stderr := "Error: " ++ exn_str e ++ newline;
             exit_code := 1 |}
      end
  | _ =>
      {| printed_stdout := "";
         printed_stderr :=
           "Usage: convert-plugin-manifest.py <plugin.yaml>" ++ newline;
         exit_code := 1 |}
  end.

End Collaborators.

End Manifest.

(* ================================================================= *)
(** ** Vocabulary of the specification *)

Module Spec.
Import Py Catalog.

(** [s.find(sub)]: where the first occurrence of [sub] starts. *)
Fixpoint str_find (s sub : string) : option nat :=
  if str_startswith s sub then Some 0
  else match s with
       | "" => None
       | String _ s' => option_map S (str_find s' sub)
       end.

(** [t] is [s] with every occurrence of [old], found from the left and
    never overlapping the previous one, replaced by [new]. *)
Inductive ReplacedAll (old new : string) : string -> string -> Prop :=
| ra_done s :
    str_find s old = None ->
    ReplacedAll old new s s
| ra_next a b t :
    str_find (a ++ old ++ b) old = Some (String.length a) ->
    ReplacedAll old new b t ->
    ReplacedAll old new (a ++ old ++ b) (a ++ new ++ t).

(** [s] with its first occurrence of [old] replaced and the rest kept. *)
Fixpoint replace_first (s old new : string) : string :=
  if str_startswith s old
  then new ++ substring (String.length old) (String.length s) s
  else match s with
       | "" => ""
       | String c s' => String c (replace_first s' old new)
       end.

Fixpoint repeat_char (c : ascii) (n : nat) : string :=
  match n with
  | O => ""
  | S n' => String c (repeat_char c n')
  end.

(** [s] without its first character when that character is [c]. *)
Definition strip_one (c : ascii) (s : string) : string :=
  match s with
  | String a s' => if (a =? c)%char then s' else s
  | "" => ""
  end.

(** The first platform key, in the fixed order, found in an asset name. *)
Definition first_platform (name : string) : option string :=
  find (fun platform => str_contains platform name) platforms.

(** An asset for which the scan records something under [platform]. *)
Definition asset_matches (platform : string) (asset : pyval) : bool :=
  match getitem asset "name" with
  | Ok (PStr n) => str_endswith n ".plugin" && str_contains platform n
  | _ => false
  end.

Fixpoint last_match (platform : string) (assets : list pyval) : option pyval :=
  match assets with
  | [] => None
  | asset :: assets' =>
      match last_match platform assets' with
      | Some later => Some later
      | None => if asset_matches platform asset then Some asset else None
      end
  end.

(** The DownloadEntry the scan leaves under [platform]. *)
Definition recorded (platform : string) (assets : list pyval) : option pyval :=
  match last_match platform assets with
  | Some asset =>
      match download_entry asset with
      | Ok entry => Some entry
      | Raise _ => None
      end
  | None => None
  end.

(** Membership of a key in a list of platform keys. *)
Definition is_platform (keys : list string) (key : string) : bool :=
  existsb (String.eqb key) keys.

(** What a scan of [assets] leaves under [key]. *)
Definition slot (key : string) (assets : list pyval) : option pyval :=
  if is_platform platforms key then recorded key assets else None.

(** The record shapes of the data model. *)

Definition nullable_str (v : pyval) : bool :=
  match v with
  | PNone | PStr _ => true
  | _ => false
  end.

Definition asset_shape (asset : pyval) : bool :=
  match asset with
  | PDict d =>
      match dict_get d "name", dict_get d "url" with
      | Some (PStr _), Some (PStr _) => true
      | _, _ => false
      end
  | _ => false
  end.

Definition absent_or (shape : pyval -> bool) (field : option pyval) : bool :=
  match field with
  | None => true
  | Some v => shape v
  end.

Definition asset_list_shape (v : pyval) : bool :=
  match v with
  | PList assets => forallb asset_shape assets
  | _ => false
  end.

Definition release_shape (release : pyval) : bool :=
  match release with
  | PDict d =>
      match dict_get d "tagName" with
      | Some (PStr _) => true
      | _ => false
      end
      && absent_or nullable_str (dict_get d "body")
      && absent_or nullable_str (dict_get d "publishedAt")
      && absent_or asset_list_shape (dict_get d "assets")
  | _ => false
  end.

(** The release record of the data model as [gh] serialises it. *)
Definition release_record (tag : string) (body publishedAt : pyval)
           (assets : list pyval) : pyval :=
  PDict [("tagName", PStr tag); ("body", body);
         ("publishedAt", publishedAt); ("assets", PList assets)].

Definition asset_record (name url : string) : pyval :=
  PDict [("name", PStr name); ("url", PStr url)].

(** The pre-filter: the tag begins with [plugin-]. *)
Definition is_plugin_release (release : pyval) : bool :=
  match getitem release "tagName" with
  | Ok (PStr tag) => str_startswith tag "plugin-"
  | _ => false
  end.

(** The catalog entry of the data model. *)
Definition display_name (id : string) : string :=
  str_title (str_replace id "-" " ").

Definition plugin_entry (id version : string)
           (downloads : list (string * pyval))
           (description : string) (publishedAt : pyval) : pyval :=
  PDict [("id", PStr id);
         ("name", PStr (display_name id));
         ("version", PStr version);
         ("official", PBool true);
         ("downloads", PDict downloads);
         ("metadata", PDict [("description", PStr description);
                             ("publishedAt", publishedAt)])].

(** A release does not qualify: its tag lacks the prefix, or parsing
    returns nothing. *)
Definition discarded (release : pyval) : Prop :=
  exists tag,
    getitem release "tagName" = Ok (PStr tag) /\
    (str_startswith tag "plugin-" = false \/
     parse_plugin_release release = Ok PNone).

Definition yields (release plugin : pyval) : Prop :=
  exists tag entry,
    getitem release "tagName" = Ok (PStr tag) /\
    str_startswith tag "plugin-" = true /\
    parse_plugin_release release = Ok plugin /\
    plugin = PDict entry.

(** [plugins] lists, in the order of [releases], the entries of the
    releases that qualify. *)
Inductive kept_in_order : list pyval -> list pyval -> Prop :=
| kept_nil : kept_in_order [] []
| kept_skip release releases plugins :
    discarded release ->
    kept_in_order releases plugins ->
    kept_in_order (release :: releases) plugins
| kept_cons release releases plugin plugins :
    yields release plugin ->
    kept_in_order releases plugins ->
    kept_in_order (release :: releases) (plugin :: plugins).

(** The two loops over releases, one after the other, as
    [generate_catalog] runs them. *)
Definition pipeline (releases : list pyval) : result (list pyval) :=
  kept <- filter_releases releases [];; collect_plugins kept [].

(** A catalog envelope around [plugins]. *)
Definition catalog_of (now : string) (plugins : list pyval) : pyval :=
  PDict [("version", PStr "1.0");
         ("updated", PStr (now ++ "Z"));
         ("baseUrl", PStr baseUrl);
         ("plugins", PList plugins)].

(** A field of a [dict] value. *)
Definition field (v : pyval) (key : string) : option pyval :=
  match v with
  | PDict d => dict_get d key
  | _ => None
  end.

(** Three readings of the scripts that the code does not follow.
    Each is stated for one input, so that it can be tested there. *)

(** Only the first [.plugin] of the url becomes [.plugin.sha256]. *)
Definition replaces_first_only (asset : pyval) : Prop :=
  forall url entry,
    getitem asset "url" = Ok (PStr url) ->
    download_entry asset = Ok entry ->
    field entry "checksumUrl"
    = Some (PStr (replace_first url ".plugin" ".plugin.sha256")).

(** The version is the third tag segment less at most one leading [v]. *)
Definition strips_one_v (release : pyval) : Prop :=
  forall tag parts part2 entry,
    getitem release "tagName" = Ok (PStr tag) ->
    str_split tag "-" = Ok parts ->
    nth_error parts 2 = Some part2 ->
    parse_plugin_release release = Ok entry ->
    field entry "version" = Some (PStr (strip_one "v" part2)).

(** One asset records an entry under the first key it matches only. *)
Definition records_first_key_only (asset : pyval) : Prop :=
  forall name downloads key,
    getitem asset "name" = Ok (PStr name) ->
    str_endswith name ".plugin" = true ->
    scan_assets [asset] [] = Ok downloads ->
    dict_get downloads key <> None ->
    first_platform name = Some key.


(** The keys of a release that [parse_plugin_release] reads. *)
Definition release_keys : list string :=
  ["tagName"; "assets"; "body"; "publishedAt"].

(** The keys of [spec] that [convert_manifest] copies under the same name. *)
Definition copied_keys : list string :=
  ["version"; "description"; "category"; "author"; "license"; "repository";
   "documentation"; "keywords"; "requirements"; "capabilities"; "resources"].

(** The tag that the converter names in [source.url]. *)
Definition release_tag (name version : string) : string :=
  "plugin-" ++ name ++ "-v" ++ version.

Definition release_page : string :=
  "https://github.com/blackhole-pro/blackhole/releases/tag/".

Definition is_dict (v : pyval) : bool :=
  match v with
  | PDict _ => true
  | _ => false
  end.

Definition usage_line : string :=
  "Usage: convert-plugin-manifest.py <plugin.yaml>" ++ newline.

(** The part of [parse_plugin_release] that fills [downloads]. *)
Definition scanned (release : pyval) : result (list (string * pyval)) :=
  assets <- get release "assets" (PList []);;
  items <- iter assets;;
  scan_assets items [].

(** The part of [parse_plugin_release] that follows the tag: what it
    builds from the two segments it kept. *)
Definition build_entry (plugin_id part2 : string) (release : pyval)
  : result pyval :=
  downloads <- scanned release;;
  if negb (truthy (PDict downloads)) then Ok PNone
  else
    description <- description_of release;;
    publishedAt <- get release "publishedAt" (PStr "");;
    Ok (PDict
          [("id", PStr plugin_id);
           ("name", PStr (str_title (str_replace plugin_id "-" " ")));
           ("version", PStr (str_lstrip part2 "v"));
           ("official", PBool true);
           ("downloads", PDict downloads);
           ("metadata", PDict [("description", description);
                               ("publishedAt", publishedAt)])]).



(** The error line of either script for an exception. *)
Definition error_line (e : exn) : string :=
  "Error: " ++ exn_str e ++ newline.

End Spec.

(* ================================================================= *)
(** ** Sample inputs *)

Module Samples.
Import Py Catalog Spec.

Definition node_asset : pyval :=
  asset_record "node-linux-amd64.plugin" "https://x/node-linux-amd64.plugin".

(** The scenario of the specification: a tag and one asset. *)
Definition node_release : pyval :=
  PDict [("tagName", PStr "plugin-node-v1.2.0");
         ("assets", PList [node_asset])].

(** [.plugin] occurs twice in the url. *)
Definition nested_asset : pyval :=
  asset_record "b-linux-amd64.plugin" "https://x/a.plugin/b-linux-amd64.plugin".

Definition nested_release : pyval :=
  release_record "plugin-b-v1" PNone PNone [nested_asset].

Definition nested_download : pyval :=
  PDict [("url", PStr "https://x/a.plugin/b-linux-amd64.plugin");
         ("checksumUrl",
           PStr "https://x/a.plugin.sha256/b-linux-amd64.plugin.sha256")].

Definition nested_entry : list (string * pyval) :=
  [("id", PStr "b");
   ("name", PStr "B");
   ("version", PStr "1");
   ("official", PBool true);
   ("downloads", PDict [("linux-amd64", nested_download)]);
   ("metadata", PDict [("description", PStr ""); ("publishedAt", PNone)])].

(** The version segment begins with two [v]. *)
Definition vv_release : pyval :=
  release_record "plugin-node-vv1.2.0" PNone PNone [node_asset].

Definition vv_entry : list (string * pyval) :=
  [("id", PStr "node");
   ("name", PStr "Node");
   ("version", PStr "1.2.0");
   ("official", PBool true);
   ("downloads",
     PDict [("linux-amd64",
              PDict [("url", PStr "https://x/node-linux-amd64.plugin");
                     ("checksumUrl",
                       PStr "https://x/node-linux-amd64.plugin.sha256")])]);
   ("metadata", PDict [("description", PStr ""); ("publishedAt", PNone)])].

(** The file name carries two platform keys. *)
Definition fat_asset : pyval :=
  asset_record "node-linux-amd64-darwin-arm64.plugin" "https://x/n.plugin".

(** A later asset for a platform already seen. *)
Definition newer_asset : pyval :=
  asset_record "node2-linux-amd64.plugin" "https://x/node2-linux-amd64.plugin".

(** Releases that do not reach the catalog. *)
Definition docs_release : pyval :=
  release_record "v0.9.0" (PStr "notes") PNone [node_asset].

Definition short_release : pyval :=
  release_record "plugin-foo" PNone PNone [node_asset].

Definition text_only_release : pyval :=
  release_record "plugin-bar-v2.0.0" PNone PNone [asset_record "bar.txt" "u"].

(** Consecutive dashes in the tag. *)
Definition dashes_release : pyval :=
  release_record "plugin--v1" PNone PNone [node_asset].

Definition ok_process (out : string) : CompletedProcess :=
  {| returncode := 0; stdout := out; stderr := "" |}.

Definition failed_process : CompletedProcess :=
  {| returncode := 1; stdout := ""; stderr := "boom" |}.

(** A decoder that knows two listings, named ["full"] and ["rest"]. *)
Definition two_listings (full rest : list pyval) (text : string)
  : result pyval :=
  if (text =? "full")%string then Ok (PList full)
  else if (text =? "rest")%string then Ok (PList rest)
  else Raise (ValueError "Expecting value: line 1 column 1 (char 0)").

Definition show (v : pyval) : string := "<json>".

(** A manifest with a [spec] that only gives the version. *)
Definition bare_manifest : pyval :=
  PDict [("metadata", PDict [("name", PStr "node")]);
         ("spec", PDict [("version", PStr "1.0.0")])].

Definition load_bare (path : string) : result pyval := Ok bare_manifest.

Definition format_str (v : pyval) : string :=
  match v with
  | PStr s => s
  | _ => "None"
  end.



(** A body of two lines. *)
Definition notes : string := "Adds things" ++ newline ++ "More".

Definition noted_release : pyval :=
  release_record "plugin-bar-v2.0.0" (PStr notes) PNone [node_asset].

Definition noted_entry : list (string * pyval) :=
  [("id", PStr "bar");
   ("name", PStr "Bar");
   ("version", PStr "2.0.0");
   ("official", PBool true);
   ("downloads",
     PDict [("linux-amd64",
              PDict [("url", PStr "https://x/node-linux-amd64.plugin");
                     ("checksumUrl",
                       PStr "https://x/node-linux-amd64.plugin.sha256")])]);
   ("metadata",
     PDict [("description", PStr "Adds things"); ("publishedAt", PNone)])].

(** An asset that is no plugin binary and has no url. *)
Definition checksum_asset : pyval :=
  PDict [("name", PStr "node-linux-amd64.plugin.sha256")].

(** A listed release without a tag. *)
Definition untagged_release : pyval :=
  PDict [("name", PStr "Draft"); ("assets", PList [])].

Definition one_listing (releases : list pyval) (text : string)
  : result pyval := Ok (PList releases).

(** The manifest of the plugin [node], version [1.2.0]. *)
Definition node_manifest : pyval :=
  PDict [("metadata", PDict [("name", PStr "node")]);
         ("spec", PDict [("version", PStr "1.2.0");
                         ("category", PNone);
                         ("displayName", PStr "Node runtime")])].

Definition load_node (path : string) : result pyval := Ok node_manifest.

Definition node_metadata : list (string * pyval) := [("name", PStr "node")].

Definition node_spec : list (string * pyval) :=
  [("version", PStr "1.2.0");
   ("category", PNone);
   ("displayName", PStr "Node runtime")].

(** The scenario release with fields that the parser has no use for. *)
Definition titled_release : list (string * pyval) :=
  [("name", PStr "Node 1.2");
   ("tagName", PStr "plugin-node-v1.2.0");
   ("isDraft", PBool false);
   ("assets", PList [node_asset])].

Definition plain_release : list (string * pyval) :=
  [("tagName", PStr "plugin-node-v1.2.0");
   ("assets", PList [node_asset])].


End Samples.

(* ================================================================= *)
(** ** Facts about the string methods *)

Module StrFacts.
Import Py Spec.

Lemma length_app (s t : string) :
  String.length (s ++ t) = String.length s + String.length t.
Proof. induction s as [|c s IH]; simpl; [reflexivity | now rewrite IH]. Qed.

Lemma app_assoc (s t u : string) : (s ++ t) ++ u = s ++ t ++ u.
Proof. induction s as [|c s IH]; simpl; [reflexivity | now rewrite IH]. Qed.

Lemma startswith_app (p s : string) : str_startswith (p ++ s) p = true.
Proof.
  induction p as [|c p IH]; simpl; [reflexivity |].
  now rewrite Ascii.eqb_refl, IH.
Qed.

Lemma startswith_inv (p : string) :
  forall s, str_startswith s p = true -> exists rest, s = p ++ rest.
Proof.
  induction p as [|c p IH]; intros s H.
  - now exists s.
  - destruct s as [|d s]; simpl in H; [discriminate |].
    apply andb_true_iff in H as [Hc Hp].
    apply Ascii.eqb_eq in Hc; subst d.
    destruct (IH s Hp) as [rest ->].
    now exists rest.
Qed.

Lemma find_cons_inv (c : ascii) (s sub : string) (i : nat) :
  str_find (String c s) sub = Some (S i) ->
  str_startswith (String c s) sub = false /\ str_find s sub = Some i.
Proof.
  cbn [str_find].
  destruct (str_startswith (String c s) sub); [discriminate |].
  destruct (str_find s sub) as [j|]; simpl; [|discriminate].
  intros [= ->]. now split.
Qed.

Lemma find_none_inv (c : ascii) (s sub : string) :
  str_find (String c s) sub = None ->
  str_startswith (String c s) sub = false /\ str_find s sub = None.
Proof.
  cbn [str_find].
  destruct (str_startswith (String c s) sub); [discriminate |].
  destruct (str_find s sub); simpl; [discriminate | now split].
Qed.

Lemma find_some_inv (sub : string) :
  forall s i, str_find s sub = Some i ->
  exists a b, s = a ++ sub ++ b /\ String.length a = i.
Proof.
  induction s as [|c s IH]; intros i H.
  - cbn [str_find] in H.
    destruct (str_startswith "" sub) eqn:E; [|discriminate].
    injection H as <-.
    destruct (startswith_inv _ _ E) as [rest ->].
    now exists "", rest.
  - destruct i as [|i].
    + cbn [str_find] in H.
      destruct (str_startswith (String c s) sub) eqn:E.
      * destruct (startswith_inv _ _ E) as [rest ->].
        now exists "", rest.
      * destruct (str_find s sub); discriminate.
    + apply find_cons_inv in H as [_ H].
      destruct (IH i H) as (a & b & -> & <-).
      now exists (String c a), b.
Qed.

Section Replace.
Variables (o : ascii) (old' new : string).
Let old := String o old'.

Lemma replace_skip (p s : string) :
  replace_from old new (String.length p) (p ++ s) = replace_from old new 0 s.
Proof. induction p as [|c p IH]; simpl; [reflexivity | exact IH]. Qed.

Lemma replace_absent :
  forall s, str_find s old = None -> replace_from old new 0 s = s.
Proof.
  induction s as [|c s IH]; intros H; [reflexivity |].
  apply find_none_inv in H as [Hp Hs].
  cbn [replace_from]. rewrite Hp. now rewrite (IH Hs).
Qed.

Lemma replace_hit (b : string) :
  replace_from old new 0 (old ++ b) = new ++ replace_from old new 0 b.
Proof.
  unfold old at 2. cbn [append replace_from].
  change (String o (old' ++ b)) with (old ++ b).
  rewrite startswith_app.
  replace (String.length old - 1) with (String.length old')
    by (unfold old; simpl; lia).
  now rewrite replace_skip.
Qed.

Lemma replace_first_hit (b : string) :
  forall a,
    str_find (a ++ old ++ b) old = Some (String.length a) ->
    replace_from old new 0 (a ++ old ++ b)
    = a ++ new ++ replace_from old new 0 b.
Proof.
  induction a as [|c a IH]; intros H.
  - apply replace_hit.
  - cbn [append String.length] in H |- *.
    apply find_cons_inv in H as [Hp Hs].
    cbn [replace_from]. rewrite Hp. now rewrite (IH Hs).
Qed.

Lemma replace_from_all :
  forall n s, String.length s <= n ->
  ReplacedAll old new s (replace_from old new 0 s).
Proof.
  induction n as [|n IH]; intros s Hn.
  - destruct s; [|simpl in Hn; lia].
    apply ra_done. reflexivity.
  - destruct (str_find s old) as [i|] eqn:E.
    + destruct (find_some_inv _ _ _ E) as (a & b & -> & <-).
      rewrite (replace_first_hit _ _ E).
      apply ra_next; [exact E |].
      apply IH. rewrite !length_app in Hn. unfold old in Hn.
      simpl in Hn. lia.
    + rewrite (replace_absent _ E). now apply ra_done.
Qed.

End Replace.

(** [str.replace] with a non-empty pattern replaces every occurrence. *)
Lemma str_replace_all (s old new : string) :
  old <> "" -> ReplacedAll old new s (str_replace s old new).
Proof.
  destruct old as [|o old']; [congruence | intros _].
  apply (replace_from_all o old' new (String.length s)). lia.
Qed.

(** What [ReplacedAll] relates [s] to is determined by [s]. *)
Lemma ReplacedAll_functional (old new s t : string) :
  ReplacedAll old new s t ->
  forall t', ReplacedAll old new s t' -> t = t'.
Proof.
  induction 1 as [s Hs | a b t Ha Hb IH]; intros t' H'.
  - inversion H' as [s' Hs' | a' b' u Ha' Hb']; subst; [reflexivity |].
    congruence.
  - inversion H' as [s' Hs' | a' b' u Ha' Hb' Heq]; subst.
    + congruence.
    + rewrite Heq, Ha in Ha'. injection Ha' as Hlen.
      assert (Hab : a = a' /\ b = b').
      { clear -Heq Hlen. revert a' Heq Hlen.
        induction a as [|c a IHa]; intros [|c' a'] Heq Hlen;
          simpl in *; try discriminate.
        - split; [reflexivity |].
          induction old as [|c old IHo]; simpl in Heq;
            [now symmetry | injection Heq as Heq; auto].
        - injection Heq as -> Heq. injection Hlen as Hlen.
          destruct (IHa a' Heq Hlen) as [-> ->].
          now split. }
      destruct Hab as [<- <-]. now rewrite (IH u Hb').
Qed.

Section Split.
Variables (o : ascii) (sep' : string).
Let sep := String o sep'.

Lemma split_skip (p s : string) :
  split_from sep (String.length p) (p ++ s) = split_from sep 0 s.
Proof. induction p as [|c p IH]; simpl; [reflexivity | exact IH]. Qed.

Lemma split_hit (rest : string) :
  split_from sep 0 (sep ++ rest) = "" :: split_from sep 0 rest.
Proof.
  unfold sep at 2. cbn [append split_from].
  change (String o (sep' ++ rest)) with (sep ++ rest).
  rewrite startswith_app.
  replace (String.length sep - 1) with (String.length sep')
    by (unfold sep; simpl; lia).
  now rewrite split_skip.
Qed.

Lemma split_from_nonempty (s : string) (skip : nat) :
  split_from sep skip s <> [].
Proof.
  revert skip. induction s as [|c s IH]; intros skip; cbn [split_from].
  - discriminate.
  - destruct skip as [|k]; [|apply IH].
    destruct (str_startswith (String c s) sep); [discriminate |].
    specialize (IH 0). destruct (split_from sep 0 s); [congruence |].
    discriminate.
Qed.

Lemma concat_cons_char (c : ascii) (pieces : list string) :
  pieces <> [] ->
  String.concat sep (cons_char c pieces) = String c (String.concat sep pieces).
Proof.
  destruct pieces as [|p [|q ps]]; [congruence | reflexivity | reflexivity].
Qed.

Lemma concat_cons (p : string) (pieces : list string) :
  pieces <> [] -> String.concat sep (p :: pieces) = p ++ sep ++ String.concat sep pieces.
Proof. destruct pieces; [congruence | reflexivity]. Qed.

(** Joining the pieces with the separator gives the string back. *)
Lemma split_join :
  forall n s, String.length s <= n -> String.concat sep (split_from sep 0 s) = s.
Proof.
  induction n as [|n IH]; intros s Hn.
  - destruct s; [reflexivity | simpl in Hn; lia].
  - destruct s as [|c s]; [reflexivity |].
    destruct (str_startswith (String c s) sep) eqn:E.
    + destruct (startswith_inv _ _ E) as [rest Hrest].
      rewrite Hrest, split_hit.
      rewrite concat_cons by apply split_from_nonempty.
      rewrite IH; [reflexivity |].
      rewrite Hrest, length_app in Hn. unfold sep in Hn. simpl in Hn. lia.
    + cbn [split_from]. rewrite E.
      rewrite concat_cons_char by apply split_from_nonempty.
      rewrite IH; [reflexivity | simpl in Hn; lia].
Qed.

Lemma startswith_app_l (s t p : string) :
  str_startswith s p = true -> str_startswith (s ++ t) p = true.
Proof.
  revert s. induction p as [|a p IH]; intros s; [reflexivity |].
  destruct s as [|b s]; simpl; [discriminate |].
  intros H. apply andb_true_iff in H as [-> H]. now apply IH.
Qed.

(** No piece contains the separator. *)
Lemma split_pieces_free :
  forall n s, String.length s <= n ->
  Forall (fun piece => str_find piece sep = None) (split_from sep 0 s).
Proof.
  induction n as [|n IH]; intros s Hn.
  - destruct s; [|simpl in Hn; lia]. now repeat constructor.
  - destruct s as [|c s]; [now repeat constructor |].
    destruct (str_startswith (String c s) sep) eqn:E.
    + destruct (startswith_inv _ _ E) as [rest Hrest].
      rewrite Hrest, split_hit. constructor; [reflexivity |].
      apply IH. rewrite Hrest, length_app in Hn. unfold sep in Hn.
      simpl in Hn. lia.
    + cbn [split_from]. rewrite E.
      assert (Hs : String.length s <= n) by (simpl in Hn; lia).
      pose proof (IH s Hs) as Hfree. pose proof (split_join n s Hs) as Hjoin.
      destruct (split_from sep 0 s) as [|p ps] eqn:Hsplit;
        [destruct (split_from_nonempty s 0 Hsplit) |].
      apply Forall_cons_iff in Hfree as [Hp Hps].
      cbn [cons_char]. constructor; [|exact Hps].
      cbn [str_find]. rewrite Hp.
      destruct (str_startswith (String c p) sep) eqn:Ep; [|reflexivity].
      assert (Hpre : exists t, s = p ++ t).
      { destruct ps as [|q ps]; [exists ""|exists (sep ++ String.concat sep (q :: ps))].
        - simpl in Hjoin. subst s. clear. induction p; simpl; congruence.
        - exact (eq_sym Hjoin). }
      destruct Hpre as [t ->].
      change (String c (p ++ t)) with (String c p ++ t) in E.
      now rewrite (startswith_app_l _ t _ Ep) in E.
Qed.

End Split.

(** [str.split] with a non-empty separator: the pieces joined by the
    separator are the string, and the separator occurs in none of them. *)
Lemma str_split_spec (s sep : string) (parts : list string) :
  str_split s sep = Ok parts ->
  String.concat sep parts = s /\
  Forall (fun piece => str_find piece sep = None) parts.
Proof.
  destruct sep as [|o sep']; [discriminate |].
  unfold str_split. intros [= <-]. split.
  - apply (split_join o sep' (String.length s)). lia.
  - apply (split_pieces_free o sep' (String.length s)). lia.
Qed.

Lemma lstrip_char (c : ascii) :
  forall s, exists n,
    s = repeat_char c n ++ str_lstrip s (String c "") /\
    str_startswith (str_lstrip s (String c "")) (String c "") = false.
Proof.
  induction s as [|a s (n & Hs & Hn)].
  - now exists 0.
  - cbn [str_lstrip char_in]. rewrite orb_false_r.
    destruct (Ascii.eqb_spec c a) as [<- | Hne].
    + exists (S n). split; [simpl; now rewrite <- Hs | exact Hn].
    + exists 0. split; [reflexivity |].
      simpl. apply Ascii.eqb_neq in Hne. now rewrite Hne.
Qed.

End StrFacts.

(* ================================================================= *)
(** ** Facts about the asset scan *)

Module ScanFacts.
Import Py Catalog Spec.

Lemma dict_get_set (d : list (string * pyval)) (key : string) (v : pyval) :
  forall key',
    dict_get (dict_set d key v) key'
    = if (key =? key')%string then Some v else dict_get d key'.
Proof.
  intros key'. induction d as [|[k w] d IH]; simpl.
  - reflexivity.
  - destruct (String.eqb_spec k key) as [-> | Hk]; simpl.
    + now destruct (key =? key')%string.
    + rewrite IH.
      destruct (String.eqb_spec k key') as [-> | _]; [|reflexivity].
      apply String.eqb_neq in Hk. rewrite String.eqb_sym in Hk.
      now rewrite Hk.
Qed.

Lemma get_dict (d : list (string * pyval)) (key : string) (default : pyval) :
  get (PDict d) key default
  = Ok (match dict_get d key with
        | Some v => v
        | None => default
        end).
Proof. unfold get. now destruct (dict_get d key). Qed.

(** The entry built from an asset, when one is built. *)
Lemma download_entry_inv (asset entry : pyval) :
  download_entry asset = Ok entry ->
  exists url,
    getitem asset "url" = Ok (PStr url) /\
    entry = PDict [("url", PStr url);
                   ("checksumUrl",
                     PStr (str_replace url ".plugin" ".plugin.sha256"))].
Proof.
  unfold download_entry.
  destruct (getitem asset "url") as [url|e]; [|discriminate].
  destruct url; try discriminate.
  simpl. intros [= <-]. now eexists.
Qed.

Lemma asset_shape_inv (asset : pyval) :
  asset_shape asset = true ->
  exists name url,
    getitem asset "name" = Ok (PStr name) /\
    download_entry asset
    = Ok (PDict [("url", PStr url);
                 ("checksumUrl",
                   PStr (str_replace url ".plugin" ".plugin.sha256"))]).
Proof.
  destruct asset as [| | | | |d]; try discriminate.
  unfold asset_shape, download_entry, getitem.
  destruct (dict_get d "name") as [[| | |name| |]|]; try discriminate.
  destruct (dict_get d "url") as [[| | |url| |]|]; try discriminate.
  intros _. now exists name, url.
Qed.

Lemma scan_platforms_spec (asset entry : pyval) (name : string) :
  download_entry asset = Ok entry ->
  forall keys downloads,
  exists downloads',
    scan_platforms asset name keys downloads = Ok downloads' /\
    forall key,
      dict_get downloads' key
      = if is_platform keys key && str_contains key name
        then Some entry
        else dict_get downloads key.
Proof.
  intros He. induction keys as [|platform keys IH]; intros downloads.
  - exists downloads. now split.
  - cbn [scan_platforms].
    destruct (str_contains platform name) eqn:Hc.
    + rewrite He. cbn [bind].
      destruct (IH (dict_set downloads platform entry)) as (d' & -> & Hd').
      exists d'. split; [reflexivity |]. intros key.
      rewrite Hd', dict_get_set. unfold is_platform. cbn [existsb].
      destruct (String.eqb_spec key platform) as [-> | Hk].
      * rewrite Hc, String.eqb_refl. simpl.
        now destruct (existsb _ keys).
      * apply String.eqb_neq in Hk. rewrite String.eqb_sym in Hk.
        now rewrite Hk.
    + destruct (IH downloads) as (d' & -> & Hd').
      exists d'. split; [reflexivity |]. intros key.
      rewrite Hd'. unfold is_platform. cbn [existsb].
      destruct (String.eqb_spec key platform) as [-> | _]; [|reflexivity].
      rewrite Hc. simpl. now rewrite andb_false_r.
Qed.

Lemma last_match_In (key : string) (assets : list pyval) (asset : pyval) :
  last_match key assets = Some asset -> In asset assets.
Proof.
  induction assets as [|a assets IH]; cbn [last_match]; [discriminate |].
  destruct (last_match key assets) as [later|].
  - intros [= <-]. right. now apply IH.
  - destruct (asset_matches key a); [|discriminate].
    intros [= <-]. now left.
Qed.

Lemma last_match_matches (key : string) (assets : list pyval) (asset : pyval) :
  last_match key assets = Some asset -> asset_matches key asset = true.
Proof.
  induction assets as [|a assets IH]; cbn [last_match]; [discriminate |].
  destruct (last_match key assets) as [later|].
  - intros [= <-]. now apply IH.
  - destruct (asset_matches key a) eqn:E; [|discriminate].
    now intros [= <-].
Qed.

Lemma scan_assets_spec :
  forall assets downloads,
    forallb asset_shape assets = true ->
    exists downloads',
      scan_assets assets downloads = Ok downloads' /\
      forall key,
        dict_get downloads' key
        = match slot key assets with
          | Some entry => Some entry
          | None => dict_get downloads key
          end.
Proof.
  induction assets as [|asset assets IH]; intros downloads Hs.
  - exists downloads. split; [reflexivity |]. intros key.
    unfold slot, recorded. cbn [last_match].
    now destruct (is_platform platforms key).
  - cbn [forallb] in Hs. apply andb_true_iff in Hs as [Ha Hs].
    destruct (asset_shape_inv _ Ha) as (name & url & Hname & Hentry).
    cbn [scan_assets]. rewrite Hname. cbn [bind].
    assert (Hslot : forall key d1,
      (forall k, dict_get d1 k
                 = if is_platform platforms k && str_endswith name ".plugin"
                      && str_contains k name
                   then Some (PDict [("url", PStr url);
                                     ("checksumUrl",
                                       PStr (str_replace url ".plugin"
                                                         ".plugin.sha256"))])
                   else dict_get downloads k) ->
      match slot key assets with
      | Some entry => Some entry
      | None => dict_get d1 key
      end
      = match slot key (asset :: assets) with
        | Some entry => Some entry
        | None => dict_get downloads key
        end).
    { intros key d1 Hd1. unfold slot, recorded. cbn [last_match].
      rewrite Hd1. unfold asset_matches. rewrite Hname.
      destruct (is_platform platforms key); [|reflexivity].
      destruct (last_match key assets) as [later|] eqn:Hlast.
      - apply last_match_In in Hlast.
        rewrite forallb_forall in Hs.
        destruct (asset_shape_inv _ (Hs _ Hlast)) as (n' & u' & _ & ->).
        reflexivity.
      - cbn [andb].
        destruct (str_endswith name ".plugin" && str_contains key name);
          [now rewrite Hentry | reflexivity]. }
    destruct (str_endswith name ".plugin") eqn:Hend.
    + destruct (scan_platforms_spec asset _ name Hentry platforms downloads)
        as (d1 & -> & Hd1).
      cbn [bind]. destruct (IH d1 Hs) as (d' & -> & Hd').
      exists d'. split; [reflexivity |]. intros key.
      rewrite Hd'. apply Hslot. intros k. rewrite Hd1.
      now rewrite andb_true_r.
    + destruct (IH downloads Hs) as (d' & -> & Hd').
      exists d'. split; [reflexivity |]. intros key.
      rewrite Hd'. apply Hslot. intros k.
      now rewrite andb_false_r.
Qed.

End ScanFacts.

(* ================================================================= *)
(** ** Facts about parsing one release *)

Module ParseFacts.
Import Py Catalog Spec.

(** Peel one [bind] off a hypothesis that says a computation returned. *)
Tactic Notation "bind_inv" hyp(H) "as" ident(x) ident(E) :=
  match type of H with
  | bind ?m _ = Ok _ =>
      destruct m as [x|] eqn:E; cbn [bind] in H; [|discriminate H]
  end.

Lemma split_from_cons (sep : string) :
  forall s skip, exists piece pieces, split_from sep skip s = piece :: pieces.
Proof.
  induction s as [|c s IH]; intros skip; cbn [split_from].
  - now exists "", [].
  - destruct skip as [|k]; [|apply IH].
    destruct (str_startswith (String c s) sep); [now eexists; eexists |].
    destruct (IH 0) as (p & ps & ->). now exists (String c p), ps.
Qed.

Lemma str_split_ok (s sep : string) :
  sep <> "" -> exists piece pieces, str_split s sep = Ok (piece :: pieces).
Proof.
  intros Hsep. destruct sep as [|c sep]; [congruence |].
  destruct (split_from_cons (String c sep) s 0) as (p & ps & H).
  exists p, ps. unfold str_split. now rewrite H.
Qed.

Lemma list_getitem_inv {A : Type} (l : list A) (i : nat) (x : A) :
  list_getitem l i = Ok x -> nth_error l i = Some x.
Proof.
  unfold list_getitem. destruct (nth_error l i); [|discriminate].
  now intros [= ->].
Qed.

(** Every step a successful parse went through. *)
Lemma parse_inv (release : pyval) (entry : list (string * pyval)) :
  parse_plugin_release release = Ok (PDict entry) ->
  exists tag parts plugin_id part2 assets items downloads description
         publishedAt,
    getitem release "tagName" = Ok (PStr tag) /\
    str_split tag "-" = Ok parts /\
    nth_error parts 1 = Some plugin_id /\
    nth_error parts 2 = Some part2 /\
    get release "assets" (PList []) = Ok assets /\
    iter assets = Ok items /\
    scan_assets items [] = Ok downloads /\
    downloads <> [] /\
    description_of release = Ok description /\
    get release "publishedAt" (PStr "") = Ok publishedAt /\
    entry = [("id", PStr plugin_id);
             ("name", PStr (str_title (str_replace plugin_id "-" " ")));
             ("version", PStr (str_lstrip part2 "v"));
             ("official", PBool true);
             ("downloads", PDict downloads);
             ("metadata", PDict [("description", description);
                                 ("publishedAt", publishedAt)])].
Proof.
  unfold parse_plugin_release. intros H.
  bind_inv H as tagv Etag. bind_inv H as parts Eparts.
  destruct tagv as [| | |tag| |]; try discriminate Eparts.
  cbn [split] in Eparts.
  destruct (List.length parts <? 3)%nat; [discriminate H |].
  bind_inv H as plugin_id Eid. bind_inv H as part2 Epart2.
  bind_inv H as assets Eassets. bind_inv H as items Eitems.
  bind_inv H as downloads Escan.
  destruct downloads as [|kv downloads]; cbn [truthy negb] in H;
    [discriminate H |].
  bind_inv H as description Edesc. bind_inv H as publishedAt Epub.
  injection H as <-.
  exists tag, parts, plugin_id, part2, assets, items, (kv :: downloads),
    description, publishedAt.
  repeat split; auto using list_getitem_inv. discriminate.
Qed.

(** Without any assumption on the assets: whatever the scan leaves in the
    mapping was there before or was built from one of the assets. *)
Lemma scan_platforms_origin (asset : pyval) (name : string) :
  forall keys downloads downloads',
    scan_platforms asset name keys downloads = Ok downloads' ->
    forall key entry,
      dict_get downloads' key = Some entry ->
      dict_get downloads key = Some entry \/ download_entry asset = Ok entry.
Proof.
  induction keys as [|platform keys IH]; cbn [scan_platforms];
    intros downloads downloads' H key entry Hget.
  - injection H as <-. now left.
  - destruct (str_contains platform name).
    + bind_inv H as built Ebuilt.
      destruct (IH _ _ H _ _ Hget) as [Hin | Hnew]; [|now right].
      rewrite ScanFacts.dict_get_set in Hin.
      destruct (platform =? key)%string; [|now left].
      right. congruence.
    + eauto.
Qed.

Lemma scan_assets_origin :
  forall assets downloads downloads',
    scan_assets assets downloads = Ok downloads' ->
    forall key entry,
      dict_get downloads' key = Some entry ->
      dict_get downloads key = Some entry \/
      exists asset, In asset assets /\ download_entry asset = Ok entry.
Proof.
  induction assets as [|asset assets IH]; cbn [scan_assets];
    intros downloads downloads' H key entry Hget.
  - injection H as <-. now left.
  - bind_inv H as namev Ename.
    destruct namev as [| | |name| |]; try discriminate H.
    destruct (str_endswith name ".plugin").
    + bind_inv H as d1 Escan.
      destruct (IH _ _ H _ _ Hget) as [Hin | (a' & Ha' & He)].
      * destruct (scan_platforms_origin _ _ _ _ _ Escan _ _ Hin)
          as [Hold | Hnew].
        -- now left.
        -- right. exists asset. split; [now left | exact Hnew].
      * right. exists a'. split; [now right | exact He].
    + destruct (IH _ _ H _ _ Hget) as [Hin | (a' & Ha' & He)].
      * now left.
      * right. exists a'. split; [now right | exact He].
Qed.

End ParseFacts.

(* ================================================================= *)
(** ** Parsing a well-shaped release never raises *)

Module Totality.
Import Py Catalog Spec.

Lemma release_shape_inv (release : pyval) :
  release_shape release = true ->
  exists d tag,
    release = PDict d /\
    dict_get d "tagName" = Some (PStr tag) /\
    absent_or nullable_str (dict_get d "body") = true /\
    absent_or nullable_str (dict_get d "publishedAt") = true /\
    absent_or asset_list_shape (dict_get d "assets") = true.
Proof.
  destruct release as [| | | | |d]; try discriminate.
  cbn [release_shape]. intros H.
  repeat (apply andb_true_iff in H as [H ?]).
  destruct (dict_get d "tagName") as [[| | |tag| |]|] eqn:Htag;
    try discriminate.
  now exists d, tag.
Qed.

Lemma description_total (d : list (string * pyval)) :
  absent_or nullable_str (dict_get d "body") = true ->
  exists text, description_of (PDict d) = Ok (PStr text).
Proof.
  unfold description_of, get.
  destruct (dict_get d "body") as [[| | |body| |]|]; try discriminate;
    intros _; cbn [bind truthy]; try (now exists "").
  destruct (negb (body =? "")%string); [|now exists ""].
  cbn [split].
  destruct (ParseFacts.str_split_ok body newline) as (p & ps & ->);
    [discriminate |].
  now exists p.
Qed.

Lemma assets_total (d : list (string * pyval)) :
  absent_or asset_list_shape (dict_get d "assets") = true ->
  exists items downloads,
    (assets <- get (PDict d) "assets" (PList []);; iter assets) = Ok items /\
    forallb asset_shape items = true /\
    scan_assets items [] = Ok downloads.
Proof.
  unfold get.
  destruct (dict_get d "assets") as [[| | | |assets|]|]; try discriminate;
    cbn [absent_or asset_list_shape bind iter]; intros H.
  - destruct (ScanFacts.scan_assets_spec assets [] H) as (downloads & Hd & _).
    now exists assets, downloads.
  - now exists [], [].
Qed.

(** A well-shaped release parses to nothing or to a catalog entry. *)
Lemma parse_total (release : pyval) :
  release_shape release = true ->
  parse_plugin_release release = Ok PNone \/
  exists id version downloads description publishedAt,
    parse_plugin_release release
    = Ok (plugin_entry id version downloads description publishedAt) /\
    downloads <> [] /\
    nullable_str publishedAt = true.
Proof.
  intros H.
  destruct (release_shape_inv _ H) as (d & tag & -> & Htag & Hbody & Hpub & Has).
  unfold parse_plugin_release, getitem. rewrite Htag. cbn [bind split].
  destruct (ParseFacts.str_split_ok tag "-") as (p0 & ps & ->);
    [discriminate |].
  cbn [bind].
  destruct ps as [|p1 [|p2 ps]]; try (now left).
  cbn [List.length Nat.ltb Nat.leb list_getitem nth_error bind].
  destruct (assets_total d Has) as (items & downloads & Hitems & _ & Hscan).
  unfold bind at 1 in Hitems.
  destruct (get (PDict d) "assets" (PList [])) as [assets|]; [|discriminate].
  cbn [bind]. rewrite Hitems. cbn [bind]. rewrite Hscan. cbn [bind].
  destruct downloads as [|kv downloads]; [now left |].
  cbn [truthy negb].
  destruct (description_total d Hbody) as (text & ->). cbn [bind].
  right. exists p1, (str_lstrip p2 "v"), (kv :: downloads), text.
  unfold get.
  destruct (dict_get d "publishedAt") as [publishedAt|].
  - exists publishedAt. repeat split; [discriminate | exact Hpub].
  - exists (PStr ""). repeat split. discriminate.
Qed.

End Totality.

(* ================================================================= *)
(** ** Facts about the two loops over releases *)

Module LoopFacts.
Import Py Catalog Spec.
Local Open Scope list_scope.

Lemma filter_app (l1 l2 : list pyval) :
  forall acc,
    filter_releases (l1 ++ l2) acc
    = (mid <- filter_releases l1 acc;; filter_releases l2 mid).
Proof.
  induction l1 as [|r l1 IH]; intros acc; [reflexivity |].
  cbn [app filter_releases].
  destruct (getitem r "tagName") as [tag|e]; [|reflexivity]. cbn [bind].
  destruct (startswith tag "plugin-") as [[|]|e]; cbn [bind];
    [apply IH | apply IH | reflexivity].
Qed.

Lemma filter_acc (l : list pyval) :
  forall acc,
    filter_releases l acc
    = (kept <- filter_releases l [];; Ok (acc ++ kept)).
Proof.
  induction l as [|r l IH]; intros acc.
  - cbn. now rewrite app_nil_r.
  - cbn [filter_releases].
    destruct (getitem r "tagName") as [tag|e]; [|reflexivity]. cbn [bind].
    destruct (startswith tag "plugin-") as [[|]|e]; cbn [bind];
      [|apply IH | reflexivity].
    rewrite (IH (acc ++ [r])), (IH ([] ++ [r])).
    destruct (filter_releases l []) as [kept|e]; [|reflexivity].
    cbn [bind app]. now rewrite <- app_assoc.
Qed.

Lemma collect_app (l1 l2 : list pyval) :
  forall acc,
    collect_plugins (l1 ++ l2) acc
    = (mid <- collect_plugins l1 acc;; collect_plugins l2 mid).
Proof.
  induction l1 as [|r l1 IH]; intros acc; [reflexivity |].
  cbn [app collect_plugins].
  destruct (parse_plugin_release r) as [plugin|e]; [|reflexivity].
  cbn [bind]. destruct (truthy plugin); apply IH.
Qed.

(** A release that the pre-filter drops leaves no trace. *)
Lemma filter_drop (l1 l2 : list pyval) (r : pyval) (tag : string) :
  getitem r "tagName" = Ok (PStr tag) ->
  str_startswith tag "plugin-" = false ->
  forall acc,
    filter_releases (l1 ++ r :: l2) acc = filter_releases (l1 ++ l2) acc.
Proof.
  intros Htag Hpre acc. rewrite !filter_app.
  destruct (filter_releases l1 acc) as [mid|e]; [|reflexivity].
  cbn [bind filter_releases]. rewrite Htag. cbn [bind startswith].
  now rewrite Hpre.
Qed.

(** A release that parses to nothing leaves no trace either. *)
Lemma pipeline_drop (l1 l2 : list pyval) (r : pyval) (tag : string) :
  getitem r "tagName" = Ok (PStr tag) ->
  str_startswith tag "plugin-" = true ->
  parse_plugin_release r = Ok PNone ->
  pipeline (l1 ++ r :: l2) = pipeline (l1 ++ l2).
Proof.
  intros Htag Hpre Hparse. unfold pipeline. rewrite !filter_app.
  destruct (filter_releases l1 []) as [mid|e]; [|reflexivity].
  cbn [bind filter_releases]. rewrite Htag. cbn [bind startswith].
  rewrite Hpre.
  rewrite (filter_acc l2 (mid ++ [r])), (filter_acc l2 mid).
  destruct (filter_releases l2 []) as [kept|e]; [|reflexivity].
  cbn [bind]. rewrite <- app_assoc. cbn [app]. rewrite !collect_app.
  destruct (collect_plugins mid []) as [plugins|e]; [|reflexivity].
  cbn [bind collect_plugins]. rewrite Hparse. reflexivity.
Qed.

Lemma filter_shaped :
  forall releases acc,
    forallb release_shape releases = true ->
    filter_releases releases acc
    = Ok (acc ++ filter is_plugin_release releases).
Proof.
  induction releases as [|r releases IH]; intros acc H.
  - cbn. now rewrite app_nil_r.
  - cbn [forallb] in H. apply andb_true_iff in H as [Hr H].
    destruct (Totality.release_shape_inv _ Hr) as (d & tag & -> & Htag & _).
    cbn [filter_releases filter]. unfold is_plugin_release, getitem.
    rewrite Htag. cbn [bind startswith].
    destruct (str_startswith tag "plugin-").
    + rewrite (IH _ H), <- app_assoc. reflexivity.
    + apply (IH _ H).
Qed.

Lemma collect_shaped :
  forall releases acc,
    forallb release_shape releases = true ->
    exists plugins,
      collect_plugins (filter is_plugin_release releases) acc
      = Ok (acc ++ plugins) /\
      kept_in_order releases plugins.
Proof.
  induction releases as [|r releases IH]; intros acc H.
  - exists []. split; [cbn; now rewrite app_nil_r | constructor].
  - cbn [forallb] in H. apply andb_true_iff in H as [Hr H].
    destruct (Totality.release_shape_inv _ Hr) as (d & tag & Hd & Htag & _).
    assert (Hget : getitem r "tagName" = Ok (PStr tag))
      by (subst r; unfold getitem; now rewrite Htag).
    cbn [filter]. unfold is_plugin_release at 1. rewrite Hget.
    destruct (str_startswith tag "plugin-") eqn:Hpre.
    + cbn [collect_plugins].
      destruct (Totality.parse_total _ Hr)
        as [Hnone | (id & v & dl & desc & pub & Hsome & Hdl & _)].
      * rewrite Hnone. cbn [bind truthy].
        destruct (IH acc H) as (plugins & Hc & Hk).
        exists plugins. split; [exact Hc |].
        apply kept_skip; [|exact Hk]. exists tag. auto.
      * rewrite Hsome. cbn [bind]. unfold plugin_entry at 1. cbn [truthy].
        destruct (IH (acc ++ [plugin_entry id v dl desc pub]) H)
          as (plugins & Hc & Hk).
        exists (plugin_entry id v dl desc pub :: plugins).
        split; [rewrite Hc, <- app_assoc; reflexivity |].
        apply kept_cons; [|exact Hk].
        exists tag. eexists. repeat split; eauto.
    + destruct (IH acc H) as (plugins & Hc & Hk).
      exists plugins. split; [exact Hc |].
      apply kept_skip; [|exact Hk]. exists tag. auto.
Qed.

Lemma discarded_not_yields (release plugin : pyval) :
  discarded release -> yields release plugin -> False.
Proof.
  intros (tag & Htag & Hwhy) (tag' & entry & Htag' & Hpre & Hparse & ->).
  rewrite Htag in Htag'. injection Htag' as <-.
  destruct Hwhy as [Hno | Hnone]; congruence.
Qed.

(** The releases determine the list that [kept_in_order] relates them to. *)
Lemma kept_in_order_functional (releases plugins : list pyval) :
  kept_in_order releases plugins ->
  forall plugins', kept_in_order releases plugins' -> plugins = plugins'.
Proof.
  induction 1 as [|r rs ps Hd _ IH|r rs p ps Hy _ IH]; intros ps' H';
    inversion H' as [|r' rs' qs Hd' Hk'|r' rs' q qs Hy' Hk']; subst.
  - reflexivity.
  - now apply IH.
  - destruct (discarded_not_yields _ _ Hd Hy').
  - destruct (discarded_not_yields _ _ Hd' Hy).
  - f_equal; [|now apply IH].
    destruct Hy as (_ & _ & _ & _ & Hp & _).
    destruct Hy' as (_ & _ & _ & _ & Hq & _). congruence.
Qed.

Section Collaborators.
Variable json_loads : string -> result pyval.
Variable json_dumps : pyval -> string.

(** [generate_catalog] on a listing that succeeded and decoded to a list. *)
Lemma generate_catalog_listing (proc : CompletedProcess) (now : string)
      (releases : list pyval) :
  returncode proc = 0%Z ->
  json_loads (stdout proc) = Ok (PList releases) ->
  generate_catalog json_loads (Ok proc) now
  = (plugins <- pipeline releases;; Ok (catalog_of now plugins)).
Proof.
  intros Hrc Hjson.
  unfold generate_catalog, get_plugin_releases, pipeline.
  cbn [bind]. rewrite Hrc, Hjson. cbn [Z.eqb negb bind iter].
  destruct (filter_releases releases []) as [kept|e]; reflexivity.
Qed.

Lemma generate_catalog_shaped (proc : CompletedProcess) (now : string)
      (releases : list pyval) :
  returncode proc = 0%Z ->
  json_loads (stdout proc) = Ok (PList releases) ->
  forallb release_shape releases = true ->
  exists plugins,
    generate_catalog json_loads (Ok proc) now = Ok (catalog_of now plugins) /\
    kept_in_order releases plugins.
Proof.
  intros Hrc Hjson Hshape.
  rewrite (generate_catalog_listing _ _ _ Hrc Hjson). unfold pipeline.
  rewrite (filter_shaped _ [] Hshape). cbn [app bind].
  destruct (collect_shaped _ [] Hshape) as (plugins & -> & Hk).
  now exists plugins.
Qed.

End Collaborators.

End LoopFacts.

(* ================================================================= *)
(** ** The properties of the catalog generator and the converter *)

Import Py Catalog Spec Samples.

(** C1, as first read: only the first [.plugin] of the url is replaced.
    The url of [nested_asset] contains [.plugin] twice and both
    occurrences are replaced. *)
Lemma C1_first_only_refuted : ~ replaces_first_only nested_asset.
Proof.
  intros H.
  specialize (H "https://x/a.plugin/b-linux-amd64.plugin" _
                eq_refl eq_refl).
  vm_compute in H. discriminate H.
Qed.

(** C1: every download entry of a parsed release was built from one of the
    release's assets, carries that asset's url, and its checksumUrl is the
    url with every occurrence of [.plugin], taken from the left, replaced
    by [.plugin.sha256]. *)
Theorem C1_checksum_url_replaces_every_occurrence :
  forall release entry downloads platform d,
    parse_plugin_release release = Ok (PDict entry) ->
    dict_get entry "downloads" = Some (PDict downloads) ->
    dict_get downloads platform = Some d ->
    exists items asset url checksumUrl,
      (assets <- get release "assets" (PList []);; iter assets) = Ok items /\
      In asset items /\
      download_entry asset = Ok d /\
      getitem asset "url" = Ok (PStr url) /\
      d = PDict [("url", PStr url); ("checksumUrl", PStr checksumUrl)] /\
      ReplacedAll ".plugin" ".plugin.sha256" url checksumUrl.
Proof.
  intros release entry downloads platform d Hparse Hdl Hd.
  destruct (ParseFacts.parse_inv _ _ Hparse)
    as (tag & parts & id & part2 & assets & items & dl & desc & pub
        & _ & _ & _ & _ & Hassets & Hitems & Hscan & _ & _ & _ & ->).
  cbn in Hdl. injection Hdl as <-.
  destruct (ParseFacts.scan_assets_origin _ _ _ Hscan _ _ Hd)
    as [Hnil | (asset & Hin & Hbuilt)]; [discriminate Hnil |].
  destruct (ScanFacts.download_entry_inv _ _ Hbuilt) as (url & Hurl & ->).
  exists items, asset, url, (str_replace url ".plugin" ".plugin.sha256").
  rewrite Hassets. cbn [bind].
  repeat split; try assumption.
  apply StrFacts.str_replace_all. discriminate.
Qed.

Lemma C1_witness :
  parse_plugin_release nested_release = Ok (PDict nested_entry) /\
  exists items asset url checksumUrl,
    (assets <- get nested_release "assets" (PList []);; iter assets)
    = Ok items /\
    In asset items /\
    download_entry asset = Ok nested_download /\
    getitem asset "url" = Ok (PStr url) /\
    nested_download
    = PDict [("url", PStr url); ("checksumUrl", PStr checksumUrl)] /\
    ReplacedAll ".plugin" ".plugin.sha256" url checksumUrl.
Proof.
  split; [reflexivity |].
  apply (C1_checksum_url_replaces_every_occurrence
           nested_release nested_entry [("linux-amd64", nested_download)]
           "linux-amd64" nested_download); reflexivity.
Defined.

(** C2, as first read: at most one leading [v] is removed.  The third
    segment of the tag of [vv_release] is [vv1.2.0] and the version is
    [1.2.0]. *)
Lemma C2_one_v_refuted : ~ strips_one_v vv_release.
Proof.
  intros H.
  specialize (H "plugin-node-vv1.2.0" ["plugin"; "node"; "vv1.2.0"]
                "vv1.2.0" _ eq_refl eq_refl eq_refl eq_refl).
  vm_compute in H. discriminate H.
Qed.

(** C2: the version of a parsed release is the third of the segments that
    the tag splits into at its dashes, with all the leading [v] characters
    of that segment removed. *)
Theorem C2_version_drops_every_leading_v :
  forall release entry,
    parse_plugin_release release = Ok (PDict entry) ->
    exists tag parts part2 version n,
      getitem release "tagName" = Ok (PStr tag) /\
      str_split tag "-" = Ok parts /\
      String.concat "-" parts = tag /\
      nth_error parts 2 = Some part2 /\
      dict_get entry "version" = Some (PStr version) /\
      part2 = repeat_char "v" n ++ version /\
      str_startswith version "v" = false.
Proof.
  intros release entry Hparse.
  destruct (ParseFacts.parse_inv _ _ Hparse)
    as (tag & parts & id & part2 & assets & items & dl & desc & pub
        & Htag & Hparts & _ & Hpart2 & _ & _ & _ & _ & _ & _ & ->).
  destruct (StrFacts.lstrip_char "v" part2) as (n & Hn & Hv).
  destruct (StrFacts.str_split_spec _ _ _ Hparts) as [Hjoin _].
  exists tag, parts, part2, (str_lstrip part2 "v"), n.
  repeat split; assumption.
Qed.

Lemma C2_witness :
  parse_plugin_release vv_release = Ok (PDict vv_entry) /\
  exists tag parts part2 version n,
    getitem vv_release "tagName" = Ok (PStr tag) /\
    str_split tag "-" = Ok parts /\
    String.concat "-" parts = tag /\
    nth_error parts 2 = Some part2 /\
    dict_get vv_entry "version" = Some (PStr version) /\
    part2 = repeat_char "v" n ++ version /\
    str_startswith version "v" = false.
Proof.
  split; [reflexivity |].
  apply (C2_version_drops_every_leading_v vv_release vv_entry).
  reflexivity.
Defined.

(** C3, as first read: one asset records an entry for the first key it
    matches and for no other.  The name of [fat_asset] contains
    [darwin-arm64] and [linux-amd64]; an entry is recorded under
    [linux-amd64], which is not the first key found. *)
Lemma C3_first_key_only_refuted : ~ records_first_key_only fat_asset.
Proof.
  intros H.
  assert (Hkey : first_platform "node-linux-amd64-darwin-arm64.plugin"
                 = Some "linux-amd64").
  { apply (H _ _ "linux-amd64" eq_refl eq_refl eq_refl).
    vm_compute. discriminate. }
  vm_compute in Hkey. discriminate Hkey.
Qed.

(** C3: after the scan of well-shaped assets, what is recorded under a
    platform key is the entry built from the last asset whose name ends
    with [.plugin] and contains that key, and nothing when there is no such
    asset; nothing is recorded under any other key.  So an asset is
    recorded under every key its name contains, and a later asset matching
    a key replaces the entry of an earlier one. *)
Theorem C3_scan_records_last_match_per_key :
  forall assets,
    forallb asset_shape assets = true ->
    exists downloads,
      scan_assets assets [] = Ok downloads /\
      forall key,
        dict_get downloads key
        = if is_platform platforms key
          then match last_match key assets with
               | Some asset =>
                   match download_entry asset with
                   | Ok entry => Some entry
                   | Raise _ => None
                   end
               | None => None
               end
          else None.
Proof.
  intros assets Hshape.
  destruct (ScanFacts.scan_assets_spec assets [] Hshape) as (d & Hd & Hget).
  exists d. split; [exact Hd |]. intros key.
  rewrite Hget. unfold slot, recorded.
  destruct (is_platform platforms key); [|reflexivity].
  destruct (last_match key assets); [|reflexivity].
  now destruct (download_entry p).
Qed.

Lemma C3_witness :
  forallb asset_shape [node_asset; fat_asset; newer_asset] = true /\
  exists downloads,
    scan_assets [node_asset; fat_asset; newer_asset] [] = Ok downloads /\
    forall key,
      dict_get downloads key
      = if is_platform platforms key
        then match last_match key [node_asset; fat_asset; newer_asset] with
             | Some asset =>
                 match download_entry asset with
                 | Ok entry => Some entry
                 | Raise _ => None
                 end
             | None => None
             end
        else None.
Proof.
  split; [reflexivity |].
  apply (C3_scan_records_last_match_per_key
           [node_asset; fat_asset; newer_asset]).
  reflexivity.
Defined.

(** C4: a release whose tag does not begin with [plugin-] is dropped by the
    pre-filter without an error, and the run on a listing that contains it
    prints and exits exactly as the run on the listing without it: no
    catalog entry, no message and no failure comes from that release. *)
Theorem C4_release_without_prefix_leaves_no_trace :
  forall json_loads json_dumps listing listing' now before release after tag,
    returncode listing = 0%Z ->
    returncode listing' = 0%Z ->
    json_loads (stdout listing) = Ok (PList (before ++ release :: after)) ->
    json_loads (stdout listing') = Ok (PList (before ++ after)) ->
    getitem release "tagName" = Ok (PStr tag) ->
    str_startswith tag "plugin-" = false ->
    filter_releases [release] [] = Ok [] /\
    main json_loads json_dumps (Ok listing) now
    = main json_loads json_dumps (Ok listing') now.
Proof.
  intros json_loads json_dumps listing listing' now before release after tag
         Hrc Hrc' Hjson Hjson' Htag Hpre.
  split.
  - cbn [filter_releases]. rewrite Htag. cbn [bind startswith].
    now rewrite Hpre.
  - unfold main.
    rewrite (LoopFacts.generate_catalog_listing _ _ _ _ Hrc Hjson).
    rewrite (LoopFacts.generate_catalog_listing _ _ _ _ Hrc' Hjson').
    unfold pipeline.
    now rewrite (LoopFacts.filter_drop before after release tag Htag Hpre).
Qed.

Lemma C4_witness :
  str_startswith "v0.9.0" "plugin-" = false /\
  filter_releases [docs_release] [] = Ok [] /\
  main (two_listings [node_release; docs_release; vv_release]
                     [node_release; vv_release])
       show (Ok (ok_process "full")) "2024-05-01T10:00:00"
  = main (two_listings [node_release; docs_release; vv_release]
                       [node_release; vv_release])
         show (Ok (ok_process "rest")) "2024-05-01T10:00:00".
Proof.
  split; [reflexivity |].
  apply (C4_release_without_prefix_leaves_no_trace
           (two_listings [node_release; docs_release; vv_release]
                         [node_release; vv_release])
           show (ok_process "full") (ok_process "rest")
           "2024-05-01T10:00:00" [node_release] docs_release [vv_release]
           "v0.9.0"); reflexivity.
Defined.

(** C5: a release whose tag begins with [plugin-] but has fewer than three
    dash-separated parts, or whose asset scan ends with an empty mapping,
    parses to nothing without raising; the run on a listing that contains it
    prints and exits exactly as the run on the remaining releases, and when
    those are well shaped the run exits with status 0 and prints the catalog
    of their entries. *)
Theorem C5_plugin_release_without_entry_is_skipped :
  forall json_loads json_dumps listing listing' now before release after
         tag parts,
    returncode listing = 0%Z ->
    returncode listing' = 0%Z ->
    json_loads (stdout listing) = Ok (PList (before ++ release :: after)) ->
    json_loads (stdout listing') = Ok (PList (before ++ after)) ->
    getitem release "tagName" = Ok (PStr tag) ->
    str_startswith tag "plugin-" = true ->
    str_split tag "-" = Ok parts ->
    (List.length parts < 3 \/
     exists assets items,
       get release "assets" (PList []) = Ok assets /\
       iter assets = Ok items /\
       scan_assets items [] = Ok []) ->
    parse_plugin_release release = Ok PNone /\
    main json_loads json_dumps (Ok listing) now
    = main json_loads json_dumps (Ok listing') now /\
    (forallb release_shape (before ++ after) = true ->
     exists plugins,
       main json_loads json_dumps (Ok listing) now
       = {| printed_stdout := json_dumps (catalog_of now plugins) ++ newline;
            printed_stderr := "";
            exit_code := 0 |} /\
       kept_in_order (before ++ after) plugins).
Proof.
  intros json_loads json_dumps listing listing' now before release after
         tag parts Hrc Hrc' Hjson Hjson' Htag Hpre Hparts Hwhy.
  assert (Hnone : parse_plugin_release release = Ok PNone).
  { unfold parse_plugin_release. rewrite Htag. cbn [bind split].
    rewrite Hparts. cbn [bind].
    destruct (List.length parts <? 3)%nat eqn:Hlen; [reflexivity |].
    apply Nat.ltb_ge in Hlen.
    destruct Hwhy as [Hshort | (assets & items & Ha & Hi & Hs)]; [lia |].
    destruct parts as [|p0 [|p1 [|p2 parts]]]; simpl in Hlen; try lia.
    cbn [list_getitem nth_error bind].
    rewrite Ha. cbn [bind]. rewrite Hi. cbn [bind]. rewrite Hs.
    reflexivity. }
  assert (Hsame : main json_loads json_dumps (Ok listing) now
                  = main json_loads json_dumps (Ok listing') now).
  { unfold main.
    rewrite (LoopFacts.generate_catalog_listing _ _ _ _ Hrc Hjson).
    rewrite (LoopFacts.generate_catalog_listing _ _ _ _ Hrc' Hjson').
    now rewrite (LoopFacts.pipeline_drop before after release tag
                   Htag Hpre Hnone). }
  repeat split; [exact Hnone | exact Hsame |].
  intros Hshape. rewrite Hsame. unfold main.
  destruct (LoopFacts.generate_catalog_shaped
              json_loads listing' now _ Hrc' Hjson' Hshape)
    as (plugins & -> & Hkept).
  now exists plugins.
Qed.

Lemma C5_witness :
  str_startswith "plugin-foo" "plugin-" = true /\
  str_split "plugin-foo" "-" = Ok ["plugin"; "foo"] /\
  parse_plugin_release short_release = Ok PNone /\
  main (two_listings [node_release; short_release; vv_release]
                     [node_release; vv_release])
       show (Ok (ok_process "full")) "2024-05-01T10:00:00"
  = main (two_listings [node_release; short_release; vv_release]
                       [node_release; vv_release])
         show (Ok (ok_process "rest")) "2024-05-01T10:00:00" /\
  (forallb release_shape ([node_release] ++ [vv_release]) = true ->
   exists plugins,
     main (two_listings [node_release; short_release; vv_release]
                        [node_release; vv_release])
          show (Ok (ok_process "full")) "2024-05-01T10:00:00"
     = {| printed_stdout :=
            show (catalog_of "2024-05-01T10:00:00" plugins) ++ newline;
          printed_stderr := "";
          exit_code := 0 |} /\
     kept_in_order ([node_release] ++ [vv_release]) plugins).
Proof.
  split; [reflexivity |]. split; [reflexivity |].
  apply (C5_plugin_release_without_entry_is_skipped
           (two_listings [node_release; short_release; vv_release]
                         [node_release; vv_release])
           show (ok_process "full") (ok_process "rest")
           "2024-05-01T10:00:00" [node_release] short_release [vv_release]
           "plugin-foo" ["plugin"; "foo"]);
    try reflexivity.
  left. simpl. lia.
Defined.

(** C6: for a listing of well-shaped releases the run builds a catalog whose
    plugins are the entries of the qualifying releases in the order of the
    listing; a discarded release is passed over and nothing is reordered. *)
Theorem C6_plugins_follow_listing_order :
  forall json_loads listing now releases,
    returncode listing = 0%Z ->
    json_loads (stdout listing) = Ok (PList releases) ->
    forallb release_shape releases = true ->
    exists plugins,
      generate_catalog json_loads (Ok listing) now
      = Ok (catalog_of now plugins) /\
      kept_in_order releases plugins.
Proof.
  intros json_loads listing now releases.
  apply LoopFacts.generate_catalog_shaped.
Qed.

Lemma C6_witness :
  forallb release_shape [vv_release; short_release; docs_release;
                         nested_release] = true /\
  exists plugins,
    generate_catalog
      (two_listings [vv_release; short_release; docs_release; nested_release]
                    [])
      (Ok (ok_process "full")) "2024-05-01T10:00:00"
    = Ok (catalog_of "2024-05-01T10:00:00" plugins) /\
    kept_in_order [vv_release; short_release; docs_release; nested_release]
                  plugins.
Proof.
  split; [reflexivity |].
  apply (C6_plugins_follow_listing_order
           (two_listings
              [vv_release; short_release; docs_release; nested_release] [])
           (ok_process "full")); reflexivity.
Defined.

(** C7: the release tagged [plugin-node-v1.2.0] with the single asset
    [node-linux-amd64.plugin] parses to the entry with id [node], name
    [Node], version [1.2.0], official true, and a downloads mapping that
    holds exactly [linux-amd64], with the asset's url and that url followed
    by [.sha256] as checksumUrl. *)
Theorem C7_node_release_entry :
  parse_plugin_release node_release
  = Ok (PDict
          [("id", PStr "node");
           ("name", PStr "Node");
           ("version", PStr "1.2.0");
           ("official", PBool true);
           ("downloads",
             PDict [("linux-amd64",
                      PDict [("url", PStr "https://x/node-linux-amd64.plugin");
                             ("checksumUrl",
                               PStr "https://x/node-linux-amd64.plugin.sha256")])]);
           ("metadata",
             PDict [("description", PStr ""); ("publishedAt", PStr "")])]).
Proof. vm_compute. reflexivity. Qed.

(** C8: when [gh] exits with status 1 and the diagnostic [boom], the
    generator exits with status 1 and prints no catalog, but the line
    [Error: Failed to get releases: boom] goes to standard output and
    nothing is written to standard error. *)
Theorem C8_listing_failure_is_reported_on_stdout :
  forall json_loads json_dumps now,
    main json_loads json_dumps (Ok failed_process) now
    = {| printed_stdout := "Error: Failed to get releases: boom" ++ newline;
         printed_stderr := "";
         exit_code := 1 |}.
Proof. intros json_loads json_dumps now. reflexivity. Qed.

(** The converter, in the same situation, reports on standard error. *)
Lemma converter_failure_is_reported_on_stderr :
  forall load_yaml format json_dumps program path now e,
    load_yaml path = Raise e ->
    Manifest.main load_yaml format json_dumps [program; path] now
    = {| printed_stdout := "";
         printed_stderr := "Error: " ++ exn_str e ++ newline;
         exit_code := 1 |}.
Proof.
  intros load_yaml format json_dumps program path now e Hload.
  unfold Manifest.main, Manifest.convert_manifest. now rewrite Hload.
Qed.

(** C9: for a manifest document whose [metadata] and [spec] sections are
    mappings, the conversion returns an entry in which a missing
    [spec.category] gives the category [uncategorized], a missing
    [spec.license] gives the license [MIT], and a missing
    [spec.displayName] gives as name the value of [metadata.name]. *)
Theorem C9_manifest_defaults :
  forall load_yaml format path now manifest metadata spec,
    load_yaml path = Ok manifest ->
    get manifest "metadata" (PDict []) = Ok (PDict metadata) ->
    get manifest "spec" (PDict []) = Ok (PDict spec) ->
    exists entry,
      Manifest.convert_manifest load_yaml format path now = Ok (PDict entry) /\
      (dict_get spec "category" = None ->
       dict_get entry "category" = Some (PStr "uncategorized")) /\
      (dict_get spec "license" = None ->
       dict_get entry "license" = Some (PStr "MIT")) /\
      (dict_get spec "displayName" = None ->
       dict_get entry "name"
       = Some (match dict_get metadata "name" with
               | Some name => name
               | None => PNone
               end)).
Proof.
  intros load_yaml format path now manifest metadata spec Hload Hmeta Hspec.
  unfold Manifest.convert_manifest.
  rewrite Hload. cbn [bind]. rewrite Hmeta. cbn [bind].
  rewrite Hspec. cbn [bind].
  repeat (rewrite ScanFacts.get_dict; cbn [bind]).
  eexists. split; [reflexivity |].
  cbn [dict_get String.eqb Ascii.eqb Bool.eqb].
  repeat split; intros ->; reflexivity.
Qed.

Lemma C9_witness :
  load_bare "plugin.yaml" = Ok bare_manifest /\
  exists entry,
    Manifest.convert_manifest load_bare format_str "plugin.yaml"
                              "2024-05-01T10:00:00"
    = Ok (PDict entry) /\
    (dict_get [("version", PStr "1.0.0")] "category" = None ->
     dict_get entry "category" = Some (PStr "uncategorized")) /\
    (dict_get [("version", PStr "1.0.0")] "license" = None ->
     dict_get entry "license" = Some (PStr "MIT")) /\
    (dict_get [("version", PStr "1.0.0")] "displayName" = None ->
     dict_get entry "name"
     = Some (match dict_get [("name", PStr "node")] "name" with
             | Some name => name
             | None => PNone
             end)).
Proof.
  split; [reflexivity |].
  apply (C9_manifest_defaults load_bare format_str "plugin.yaml"
           "2024-05-01T10:00:00" bare_manifest
           [("name", PStr "node")] [("version", PStr "1.0.0")]);
    reflexivity.
Defined.

(** C10: parsing a release of the shape of the data model never raises: it
    returns nothing, or a catalog entry with a non-empty downloads mapping
    whose [publishedAt] is the release's own value, a string or null.  The
    shape allows the [assets], [body] and [publishedAt] fields to be
    absent, the assets list to be empty, and [body] and [publishedAt] to
    be null. *)
Theorem C10_parse_never_raises :
  forall release,
    release_shape release = true ->
    parse_plugin_release release = Ok PNone \/
    exists id version downloads description publishedAt,
      parse_plugin_release release
      = Ok (plugin_entry id version downloads description publishedAt) /\
      downloads <> [] /\
      nullable_str publishedAt = true.
Proof. exact Totality.parse_total. Qed.

Lemma C10_witness :
  release_shape dashes_release = true /\
  (parse_plugin_release dashes_release = Ok PNone \/
   exists id version downloads description publishedAt,
     parse_plugin_release dashes_release
     = Ok (plugin_entry id version downloads description publishedAt) /\
     downloads <> [] /\
     nullable_str publishedAt = true).
Proof.
  split; [reflexivity |].
  apply (C10_parse_never_raises dashes_release). reflexivity.
Defined.

(** The cases the shape leaves open, one by one. *)

Example parse_consecutive_dashes :
  exists downloads,
    parse_plugin_release dashes_release
    = Ok (plugin_entry "" "1" downloads "" PNone) /\
    display_name "" = "".
Proof. eexists. split; reflexivity. Qed.

Example parse_assets_absent :
  release_shape (PDict [("tagName", PStr "plugin-node-v1.2.0")]) = true /\
  parse_plugin_release (PDict [("tagName", PStr "plugin-node-v1.2.0")])
  = Ok PNone.
Proof. split; reflexivity. Qed.

Example parse_assets_empty :
  release_shape (release_record "plugin-node-v1.2.0" PNone PNone []) = true /\
  parse_plugin_release (release_record "plugin-node-v1.2.0" PNone PNone [])
  = Ok PNone.
Proof. split; reflexivity. Qed.

Example parse_short_tag : parse_plugin_release short_release = Ok PNone.
Proof. reflexivity. Qed.

Example parse_no_plugin_asset :
  parse_plugin_release text_only_release = Ok PNone.
Proof. reflexivity. Qed.

(* ================================================================= *)
(** ** Further facts about the string methods *)

Module SplitFacts.
Import Py Spec StrFacts.

Lemma find_none_contains (sub : string) :
  forall s, str_find s sub = None <-> str_contains sub s = false.
Proof.
  induction s as [|c s IH]; cbn [str_find str_contains].
  - destruct (str_startswith "" sub); simpl; split; congruence.
  - destruct (str_startswith (String c s) sub); simpl.
    + split; discriminate.
    + rewrite <- IH. destruct (str_find s sub); simpl; split; congruence.
Qed.

Lemma contains_app_r (sub a b : string) :
  str_contains sub (a ++ b) = false -> str_contains sub b = false.
Proof.
  induction a as [|c a IH]; [trivial |].
  cbn [append str_contains]. intros H.
  apply orb_false_iff in H as [_ H]. now apply IH.
Qed.

Section OneChar.
Variable c : ascii.
Let sep := String c "".

Lemma startswith_char (a : ascii) (s : string) :
  str_startswith (String a s) sep = (c =? a)%char.
Proof. unfold sep. cbn. now rewrite andb_true_r. Qed.

Lemma split_char_app (b : string) :
  forall a,
    split_from sep 0 (a ++ sep ++ b)
    = (split_from sep 0 a ++ split_from sep 0 b)%list.
Proof.
  induction a as [|x a IH].
  - apply (split_hit c "" b).
  - cbn [append split_from]. rewrite !startswith_char.
    destruct (c =? x)%char.
    + replace (String.length sep - 1) with 0 by reflexivity.
      now rewrite IH.
    + rewrite IH.
      pose proof (split_from_nonempty c "" a 0) as Hne.
      change (String c "") with sep in Hne.
      now destruct (split_from sep 0 a).
Qed.

Lemma split_char_free :
  forall s, str_contains sep s = false -> split_from sep 0 s = [s].
Proof.
  induction s as [|x s IH]; [reflexivity |].
  cbn [str_contains split_from]. rewrite !startswith_char.
  intros H. apply orb_false_iff in H as [-> H].
  now rewrite (IH H).
Qed.

End OneChar.

Lemma lstrip_keeps_free (sub chars : string) :
  forall s, str_find s sub = None -> str_find (str_lstrip s chars) sub = None.
Proof.
  induction s as [|c s IH]; [trivial |].
  intros H. cbn [str_lstrip].
  destruct (char_in c chars); [|exact H].
  apply IH. now apply find_none_inv in H.
Qed.

Lemma lstrip_fixed (c : ascii) (s : string) :
  str_startswith s (String c "") = false -> str_lstrip s (String c "") = s.
Proof.
  destruct s as [|a s]; [reflexivity |].
  rewrite startswith_char. cbn [str_lstrip char_in].
  intros ->. reflexivity.
Qed.

Lemma replace_without (s old new : string) :
  old <> "" -> str_contains old s = false -> str_replace s old new = s.
Proof.
  destruct old as [|o old']; [congruence |]. intros _ H.
  apply find_none_contains in H. unfold str_replace.
  now apply replace_absent.
Qed.




End SplitFacts.

(* ================================================================= *)
(** ** Further facts about the scan and the loops *)

Module MoreFacts.
Import Py Catalog Spec ParseFacts.
Local Open Scope list_scope.

Lemma dict_get_key (d : list (string * pyval)) (key : string) (v : pyval) :
  dict_get d key = Some v -> In key (map fst d).
Proof.
  induction d as [|[k w] d IH]; cbn [dict_get map fst]; [discriminate |].
  destruct (String.eqb_spec k key) as [-> | _]; [now left | right; auto].
Qed.

Lemma dict_set_keys (d : list (string * pyval)) (key : string) (v : pyval) :
  forall k, In k (map fst (dict_set d key v)) <-> k = key \/ In k (map fst d).
Proof.
  intros k. induction d as [|[k' w] d IH]; cbn [dict_set map fst In].
  - intuition.
  - destruct (String.eqb_spec k' key) as [-> | Hne]; cbn [map fst In].
    + intuition.
    + rewrite IH. intuition.
Qed.

Lemma dict_set_nodup (d : list (string * pyval)) (key : string) (v : pyval) :
  NoDup (map fst d) -> NoDup (map fst (dict_set d key v)).
Proof.
  induction d as [|[k' w] d IH]; cbn [dict_set map fst]; intros Hd.
  - repeat constructor. intros [].
  - apply NoDup_cons_iff in Hd as [Hk Hd].
    destruct (String.eqb_spec k' key) as [-> | Hne]; cbn [map fst].
    + now constructor.
    + constructor; [|now apply IH].
      rewrite dict_set_keys. intros [-> | Hin]; congruence.
Qed.

(** The keys of the mapping stay distinct and come from the key list. *)
Lemma scan_platforms_keys (asset : pyval) (name : string) :
  forall keys downloads downloads',
    scan_platforms asset name keys downloads = Ok downloads' ->
    NoDup (map fst downloads) ->
    NoDup (map fst downloads') /\
    forall k, In k (map fst downloads') ->
              In k (map fst downloads) \/ In k keys.
Proof.
  induction keys as [|platform keys IH]; cbn [scan_platforms];
    intros downloads downloads' H Hd.
  - injection H as <-. split; [exact Hd | now left].
  - destruct (str_contains platform name).
    + bind_inv H as built Ebuilt.
      destruct (IH _ _ H (dict_set_nodup _ platform built Hd)) as [Hn Hk].
      split; [exact Hn |]. intros k Hin.
      destruct (Hk k Hin) as [Hset | Hkeys]; [|right; now right].
      apply dict_set_keys in Hset as [-> | Hold]; [right; now left | now left].
    + destruct (IH _ _ H Hd) as [Hn Hk].
      split; [exact Hn |]. intros k Hin.
      destruct (Hk k Hin); [now left | right; now right].
Qed.

Lemma scan_assets_keys :
  forall assets downloads downloads',
    scan_assets assets downloads = Ok downloads' ->
    NoDup (map fst downloads) ->
    NoDup (map fst downloads') /\
    forall k, In k (map fst downloads') ->
              In k (map fst downloads) \/ In k platforms.
Proof.
  induction assets as [|asset assets IH]; cbn [scan_assets];
    intros downloads downloads' H Hd.
  - injection H as <-. split; [exact Hd | now left].
  - bind_inv H as namev Ename.
    destruct namev as [| | |name| |]; try discriminate H.
    destruct (str_endswith name ".plugin").
    + bind_inv H as d1 Escan.
      destruct (scan_platforms_keys _ _ _ _ _ Escan Hd) as [Hn1 Hk1].
      destruct (IH _ _ H Hn1) as [Hn Hk].
      split; [exact Hn |]. intros k Hin.
      destruct (Hk k Hin) as [H1 | Hp]; [|now right]. exact (Hk1 k H1).
    + exact (IH _ _ H Hd).
Qed.

(** Where an entry of the mapping comes from, with the test it passed. *)
Lemma scan_platforms_source (asset : pyval) (name : string) :
  forall keys downloads downloads',
    scan_platforms asset name keys downloads = Ok downloads' ->
    forall key entry,
      dict_get downloads' key = Some entry ->
      dict_get downloads key = Some entry \/
      (In key keys /\ str_contains key name = true /\
       download_entry asset = Ok entry).
Proof.
  induction keys as [|platform keys IH]; cbn [scan_platforms];
    intros downloads downloads' H key entry Hget.
  - injection H as <-. now left.
  - destruct (str_contains platform name) eqn:Hc.
    + bind_inv H as built Ebuilt.
      destruct (IH _ _ H _ _ Hget) as [Hin | (Hk & Hn & He)].
      * rewrite ScanFacts.dict_get_set in Hin.
        destruct (String.eqb_spec platform key) as [<- | _]; [|now left].
        injection Hin as <-. right. repeat split; [now left | exact Hc].
      * right. repeat split; [now right | exact Hn | exact He].
    + destruct (IH _ _ H _ _ Hget) as [Hin | (Hk & Hn & He)];
        [now left | right; repeat split; [now right | exact Hn | exact He]].
Qed.

Lemma scan_assets_source :
  forall assets downloads downloads',
    scan_assets assets downloads = Ok downloads' ->
    forall key entry,
      dict_get downloads' key = Some entry ->
      dict_get downloads key = Some entry \/
      exists asset name,
        In asset assets /\
        getitem asset "name" = Ok (PStr name) /\
        str_endswith name ".plugin" = true /\
        str_contains key name = true /\
        download_entry asset = Ok entry.
Proof.
  induction assets as [|asset assets IH]; cbn [scan_assets];
    intros downloads downloads' H key entry Hget.
  - injection H as <-. now left.
  - bind_inv H as namev Ename.
    destruct namev as [| | |name| |]; try discriminate H.
    destruct (str_endswith name ".plugin") eqn:Hend.
    + bind_inv H as d1 Escan.
      destruct (IH _ _ H _ _ Hget) as [Hin | (a & n & Ha & Hrest)].
      * destruct (scan_platforms_source _ _ _ _ _ Escan _ _ Hin)
          as [Hold | (_ & Hc & He)]; [now left |].
        right. exists asset, name. repeat split; auto. now left.
      * right. exists a, n. split; [now right | exact Hrest].
    + destruct (IH _ _ H _ _ Hget) as [Hin | (a & n & Ha & Hrest)];
        [now left |].
      right. exists a, n. split; [now right | exact Hrest].
Qed.

Lemma scan_app (a1 a2 : list pyval) :
  forall downloads,
    scan_assets (a1 ++ a2) downloads
    = (mid <- scan_assets a1 downloads;; scan_assets a2 mid).
Proof.
  induction a1 as [|asset a1 IH]; intros downloads; [reflexivity |].
  cbn [app scan_assets].
  destruct (getitem asset "name") as [namev|e]; [|reflexivity]. cbn [bind].
  destruct namev as [| | |name| |]; try reflexivity.
  destruct (str_endswith name ".plugin"); [|apply IH].
  destruct (scan_platforms asset name platforms downloads) as [d1|e];
    [|reflexivity].
  cbn [bind]. apply IH.
Qed.

Lemma scan_platforms_idle (asset : pyval) (name : string) :
  forall keys downloads,
    find (fun platform => str_contains platform name) keys = None ->
    scan_platforms asset name keys downloads = Ok downloads.
Proof.
  induction keys as [|platform keys IH]; intros downloads; [reflexivity |].
  cbn [find scan_platforms].
  destruct (str_contains platform name); [discriminate | apply IH].
Qed.

(** What [parse_plugin_release] can return. *)
Lemma parse_cases (release plugin : pyval) :
  parse_plugin_release release = Ok plugin ->
  plugin = PNone \/ exists entry, plugin = PDict entry /\ truthy plugin = true.
Proof.
  unfold parse_plugin_release. intros H.
  bind_inv H as tagv Etag. bind_inv H as parts Eparts.
  destruct (List.length parts <? 3)%nat; [injection H as <-; now left |].
  bind_inv H as plugin_id Eid. bind_inv H as part2 Epart2.
  bind_inv H as assets Eassets. bind_inv H as items Eitems.
  bind_inv H as downloads Escan.
  destruct (negb (truthy (PDict downloads))); [injection H as <-; now left |].
  bind_inv H as description Edesc. bind_inv H as publishedAt Epub.
  injection H as <-. right. now eexists.
Qed.

(** The filter loop, when it returns, kept the releases with the prefix,
    and every release had a string for tag. *)
Lemma filter_inv :
  forall releases acc kept,
    filter_releases releases acc = Ok kept ->
    kept = acc ++ filter is_plugin_release releases /\
    Forall (fun release => exists tag,
                getitem release "tagName" = Ok (PStr tag)) releases.
Proof.
  induction releases as [|r releases IH]; cbn [filter_releases filter];
    intros acc kept H.
  - injection H as <-. now rewrite app_nil_r.
  - bind_inv H as tagv Etag. bind_inv H as is_plugin Epre.
    destruct tagv as [| | |tag| |]; try discriminate Epre.
    assert (Hp : is_plugin = str_startswith tag "plugin-")
      by (unfold startswith in Epre; congruence).
    subst is_plugin. clear Epre.
    unfold is_plugin_release. rewrite Etag.
    destruct (str_startswith tag "plugin-");
      destruct (IH _ _ H) as [-> Hall]; split;
      try (constructor; [now exists tag | exact Hall]).
    + now rewrite <- app_assoc.
    + reflexivity.
Qed.

Lemma collect_inv :
  forall releases acc plugins,
    Forall (fun release => exists tag,
                getitem release "tagName" = Ok (PStr tag)) releases ->
    collect_plugins (filter is_plugin_release releases) acc = Ok plugins ->
    exists new, plugins = acc ++ new /\ kept_in_order releases new.
Proof.
  induction releases as [|r releases IH]; intros acc plugins Hall H.
  - cbn in H. injection H as <-. exists []. split;
      [now rewrite app_nil_r | constructor].
  - apply Forall_cons_iff in Hall as [(tag & Htag) Hall].
    cbn [filter] in H. unfold is_plugin_release at 1 in H. rewrite Htag in H.
    destruct (str_startswith tag "plugin-") eqn:Hpre.
    + cbn [collect_plugins] in H. bind_inv H as plugin Eparse.
      destruct (parse_cases _ _ Eparse) as [-> | (entry & -> & Ht)].
      * cbn [truthy] in H. destruct (IH _ _ Hall H) as (new & -> & Hk).
        exists new. split; [reflexivity |].
        apply kept_skip; [|exact Hk]. exists tag. auto.
      * rewrite Ht in H. destruct (IH _ _ Hall H) as (new & -> & Hk).
        exists (PDict entry :: new). split; [now rewrite <- app_assoc |].
        apply kept_cons; [|exact Hk]. exists tag, entry. auto.
    + destruct (IH _ _ Hall H) as (new & -> & Hk).
      exists new. split; [reflexivity |].
      apply kept_skip; [|exact Hk]. exists tag. auto.
Qed.

Lemma kept_length (releases plugins : list pyval) :
  kept_in_order releases plugins ->
  List.length plugins <= List.length releases.
Proof. induction 1; simpl; lia. Qed.

Lemma filter_tagged :
  forall releases acc,
    Forall (fun release => exists tag,
                getitem release "tagName" = Ok (PStr tag)) releases ->
    exists kept, filter_releases releases acc = Ok kept.
Proof.
  induction releases as [|r releases IH]; intros acc Hall.
  - now exists acc.
  - apply Forall_cons_iff in Hall as [(tag & Htag) Hall].
    cbn [filter_releases]. rewrite Htag. cbn [bind startswith].
    destruct (str_startswith tag "plugin-"); apply (IH _ Hall).
Qed.

End MoreFacts.

(* ================================================================= *)
(** ** What an entry is made from *)

Module EntryFacts.
Import Py Catalog Spec ParseFacts.
Local Open Scope list_scope.

Lemma parse_unfold (release : pyval) :
  parse_plugin_release release
  = (tag <- getitem release "tagName";;
     parts <- split tag "-";;
     if (List.length parts <? 3)%nat then Ok PNone
     else
       plugin_id <- list_getitem parts 1;;
       part2 <- list_getitem parts 2;;
       build_entry plugin_id part2 release).
Proof.
  unfold parse_plugin_release, build_entry, scanned.
  destruct (getitem release "tagName") as [tag|]; [|reflexivity]. cbn [bind].
  destruct (split tag "-") as [parts|]; [|reflexivity]. cbn [bind].
  destruct (List.length parts <? 3)%nat; [reflexivity |].
  destruct (list_getitem parts 1); [|reflexivity]. cbn [bind].
  destruct (list_getitem parts 2); [|reflexivity]. cbn [bind].
  destruct (get release "assets" (PList [])) as [assets|]; [|reflexivity].
  cbn [bind]. destruct (iter assets); reflexivity.
Qed.

(** Two releases that give the same tag, scan, description and date parse
    alike. *)
Lemma parse_congr (r r' : pyval) :
  getitem r "tagName" = getitem r' "tagName" ->
  scanned r = scanned r' ->
  description_of r = description_of r' ->
  get r "publishedAt" (PStr "") = get r' "publishedAt" (PStr "") ->
  parse_plugin_release r = parse_plugin_release r'.
Proof.
  intros Htag Hscan Hdesc Hpub. rewrite !parse_unfold.
  unfold build_entry. now rewrite Htag, Hscan, Hdesc, Hpub.
Qed.

(** The two segments kept from the tag contain no dash, so the
    replacement of dashes in the id changes nothing. *)
Lemma parse_segments (release : pyval) (entry : list (string * pyval)) :
  parse_plugin_release release = Ok (PDict entry) ->
  exists id version,
    dict_get entry "id" = Some (PStr id) /\
    dict_get entry "version" = Some (PStr version) /\
    str_contains "-" id = false /\
    str_contains "-" version = false /\
    dict_get entry "name" = Some (PStr (str_title id)).
Proof.
  intros Hparse.
  destruct (parse_inv _ _ Hparse)
    as (tag & parts & id & part2 & assets & items & dl & desc & pub
        & _ & Hparts & Hid & Hpart2 & _ & _ & _ & _ & _ & _ & ->).
  destruct (StrFacts.str_split_spec _ _ _ Hparts) as [_ Hfree].
  rewrite Forall_forall in Hfree.
  pose proof (Hfree _ (nth_error_In _ _ Hid)) as Hfid.
  pose proof (Hfree _ (nth_error_In _ _ Hpart2)) as Hf2.
  exists id, (str_lstrip part2 "v"). repeat split.
  - now apply SplitFacts.find_none_contains.
  - apply SplitFacts.find_none_contains.
    now apply SplitFacts.lstrip_keeps_free.
  - cbn [dict_get String.eqb Ascii.eqb Bool.eqb].
    rewrite SplitFacts.replace_without;
      [reflexivity | discriminate |].
    now apply SplitFacts.find_none_contains.
Qed.

Lemma get_either (o : pyval) (key : string) (d1 d2 v : pyval) :
  get o key d1 = Ok v -> get o key d2 = Ok v \/ v = d1.
Proof.
  destruct o; try discriminate. unfold get.
  destruct (dict_get d key); intros [= <-]; auto.
Qed.

(** The description is the first line of the body. *)
Lemma description_first_line (release body description : pyval) :
  get release "body" PNone = Ok body ->
  description_of release = Ok description ->
  exists line,
    description = PStr line /\
    str_contains newline line = false /\
    match body with
    | PStr text =>
        exists rest,
          text = (line ++ rest)%string /\
          (rest = "" \/ str_startswith rest newline = true)
    | _ => line = ""
    end.
Proof.
  intros Hbody. unfold description_of. rewrite Hbody. cbn [bind].
  destruct (truthy body) eqn:Ht.
  - destruct (get_either _ _ _ (PStr "") _ Hbody) as [-> | ->];
      [|discriminate Ht].
    cbn [bind]. intros H.
    bind_inv H as lines Elines. bind_inv H as first Efirst.
    injection H as <-.
    destruct body as [| | |text| |]; try discriminate Elines.
    cbn [split] in Elines.
    destruct (StrFacts.str_split_spec _ _ _ Elines) as [Hjoin Hfree].
    apply list_getitem_inv in Efirst.
    destruct lines as [|l0 more]; [discriminate Efirst |].
    injection Efirst as ->.
    apply Forall_cons_iff in Hfree as [Hfirst _].
    exists first. split; [reflexivity |].
    split; [now apply SplitFacts.find_none_contains |].
    destruct more as [|l1 more].
    + exists "". split; [|now left]. simpl in Hjoin. subst text.
      clear. induction first; simpl; congruence.
    + exists (newline ++ String.concat newline (l1 :: more))%string.
      split; [now rewrite <- Hjoin | right].
      apply StrFacts.startswith_app.
  - intros [= <-]. exists "". split; [reflexivity |].
    split; [reflexivity |].
    destruct body as [| | |text| |]; try reflexivity.
    cbn [truthy] in Ht. apply negb_false_iff, String.eqb_eq in Ht.
    subst text. exists "". now split; [|left].
Qed.

End EntryFacts.

(* ================================================================= *)
(** ** Further properties of the catalog generator *)

(** X1: the id and the version of a parsed release contain no dash, and
    the name is the id title-cased: an id never holds a dash that the
    replacement by a space could act on. *)
Theorem X1_id_and_version_hold_no_dash :
  forall release entry,
    parse_plugin_release release = Ok (PDict entry) ->
    exists id version,
      dict_get entry "id" = Some (PStr id) /\
      dict_get entry "version" = Some (PStr version) /\
      str_contains "-" id = false /\
      str_contains "-" version = false /\
      dict_get entry "name" = Some (PStr (str_title id)).
Proof. exact EntryFacts.parse_segments. Qed.

Lemma X1_witness :
  parse_plugin_release vv_release = Ok (PDict vv_entry) /\
  exists id version,
    dict_get vv_entry "id" = Some (PStr id) /\
    dict_get vv_entry "version" = Some (PStr version) /\
    str_contains "-" id = false /\
    str_contains "-" version = false /\
    dict_get vv_entry "name" = Some (PStr (str_title id)).
Proof.
  split; [reflexivity |].
  apply (X1_id_and_version_hold_no_dash vv_release vv_entry). reflexivity.
Defined.



(** X3: in a parsed release the description holds no line break and is the
    text of the body up to its first line break, or the empty string when
    the body is not a string; publishedAt is the release's own value, null
    included, and the empty string only when the key is absent. *)
Theorem X3_metadata_first_line_and_date :
  forall release entry body,
    parse_plugin_release release = Ok (PDict entry) ->
    get release "body" PNone = Ok body ->
    exists line publishedAt,
      dict_get entry "metadata"
      = Some (PDict [("description", PStr line);
                     ("publishedAt", publishedAt)]) /\
      get release "publishedAt" (PStr "") = Ok publishedAt /\
      str_contains newline line = false /\
      match body with
      | PStr text =>
          exists rest,
            text = line ++ rest /\
            (rest = "" \/ str_startswith rest newline = true)
      | _ => line = ""
      end.
Proof.
  intros release entry body Hparse Hbody.
  destruct (ParseFacts.parse_inv _ _ Hparse)
    as (tag & parts & id & part2 & assets & items & dl & desc & pub
        & _ & _ & _ & _ & _ & _ & _ & _ & Hdesc & Hpub & ->).
  destruct (EntryFacts.description_first_line _ _ _ Hbody Hdesc)
    as (line & -> & Hfree & Hline).
  exists line, pub. now repeat split.
Qed.

Lemma X3_witness :
  parse_plugin_release noted_release = Ok (PDict noted_entry) /\
  exists line publishedAt,
    dict_get noted_entry "metadata"
    = Some (PDict [("description", PStr line);
                   ("publishedAt", publishedAt)]) /\
    get noted_release "publishedAt" (PStr "") = Ok publishedAt /\
    str_contains newline line = false /\
    exists rest,
      notes = line ++ rest /\
      (rest = "" \/ str_startswith rest newline = true).
Proof.
  split; [reflexivity |].
  apply (X3_metadata_first_line_and_date noted_release noted_entry
           (PStr notes)); reflexivity.
Defined.

(** X4: the downloads mapping of a parsed release is not empty, its keys
    are distinct and are platform keys of the fixed list, so it holds
    between one and four entries, whatever the assets were. *)
Theorem X4_download_keys_are_distinct_platforms :
  forall release entry,
    parse_plugin_release release = Ok (PDict entry) ->
    exists downloads,
      dict_get entry "downloads" = Some (PDict downloads) /\
      NoDup (map fst downloads) /\
      (forall key, In key (map fst downloads) -> In key platforms) /\
      1 <= List.length downloads <= 4.
Proof.
  intros release entry Hparse.
  destruct (ParseFacts.parse_inv _ _ Hparse)
    as (tag & parts & id & part2 & assets & items & dl & desc & pub
        & _ & _ & _ & _ & _ & _ & Hscan & Hne & _ & _ & ->).
  destruct (MoreFacts.scan_assets_keys _ _ _ Hscan (NoDup_nil _))
    as [Hnodup Hkeys].
  assert (Hin : forall key, In key (map fst dl) -> In key platforms).
  { intros key Hk. destruct (Hkeys key Hk) as [[] | Hp]. exact Hp. }
  exists dl. repeat split; try assumption.
  - destruct dl; [congruence | simpl; lia].
  - pose proof (NoDup_incl_length Hnodup Hin) as Hlen.
    rewrite length_map in Hlen. exact Hlen.
Qed.

Lemma X4_witness :
  parse_plugin_release vv_release = Ok (PDict vv_entry) /\
  exists downloads,
    dict_get vv_entry "downloads" = Some (PDict downloads) /\
    NoDup (map fst downloads) /\
    (forall key, In key (map fst downloads) -> In key platforms) /\
    1 <= List.length downloads <= 4.
Proof.
  split; [reflexivity |].
  apply (X4_download_keys_are_distinct_platforms vv_release vv_entry).
  reflexivity.
Defined.

(** X5: every entry of the downloads mapping of a parsed release sits under
    a platform key of the fixed list and was built from an asset of the
    release whose name is a string that ends with [.plugin] and contains
    that key. *)
Theorem X5_download_comes_from_matching_asset :
  forall release entry downloads platform d,
    parse_plugin_release release = Ok (PDict entry) ->
    dict_get entry "downloads" = Some (PDict downloads) ->
    dict_get downloads platform = Some d ->
    In platform platforms /\
    exists items asset name,
      (assets <- get release "assets" (PList []);; iter assets) = Ok items /\
      In asset items /\
      getitem asset "name" = Ok (PStr name) /\
      str_endswith name ".plugin" = true /\
      str_contains platform name = true /\
      download_entry asset = Ok d.
Proof.
  intros release entry downloads platform d Hparse Hdl Hd.
  destruct (ParseFacts.parse_inv _ _ Hparse)
    as (tag & parts & id & part2 & assets & items & dl & desc & pub
        & _ & _ & _ & _ & Hassets & Hitems & Hscan & _ & _ & _ & ->).
  cbn in Hdl. injection Hdl as <-.
  split.
  - destruct (MoreFacts.scan_assets_keys _ _ _ Hscan (NoDup_nil _))
      as [_ Hkeys].
    destruct (Hkeys platform (MoreFacts.dict_get_key _ _ _ Hd)) as [[] | Hp].
    exact Hp.
  - destruct (MoreFacts.scan_assets_source _ _ _ Hscan _ _ Hd)
      as [Hnil | (asset & name & Hin & Hrest)]; [discriminate Hnil |].
    exists items, asset, name. rewrite Hassets. cbn [bind].
    split; [exact Hitems |]. split; [exact Hin | exact Hrest].
Qed.

Lemma X5_witness :
  parse_plugin_release nested_release = Ok (PDict nested_entry) /\
  In "linux-amd64" platforms /\
  exists items asset name,
    (assets <- get nested_release "assets" (PList []);; iter assets)
    = Ok items /\
    In asset items /\
    getitem asset "name" = Ok (PStr name) /\
    str_endswith name ".plugin" = true /\
    str_contains "linux-amd64" name = true /\
    download_entry asset = Ok nested_download.
Proof.
  split; [reflexivity |].
  apply (X5_download_comes_from_matching_asset
           nested_release nested_entry [("linux-amd64", nested_download)]
           "linux-amd64" nested_download); reflexivity.
Defined.

(** X6: an asset whose name is a string that does not end with [.plugin],
    or contains none of the platform keys, does not count: the release
    parses as it does without that asset, whatever else the asset holds
    (it need not have a url). *)
Theorem X6_other_assets_do_not_count :
  forall asset name tag body publishedAt before after,
    getitem asset "name" = Ok (PStr name) ->
    str_endswith name ".plugin" = false \/ first_platform name = None ->
    parse_plugin_release
      (release_record tag body publishedAt (before ++ asset :: after))
    = parse_plugin_release
        (release_record tag body publishedAt (before ++ after)).
Proof.
  intros asset name tag body publishedAt before after Hname Hwhy.
  apply EntryFacts.parse_congr; try reflexivity.
  unfold scanned, release_record.
  cbn [get dict_get String.eqb Ascii.eqb Bool.eqb bind iter].
  rewrite !MoreFacts.scan_app.
  destruct (scan_assets before []) as [mid|e]; [|reflexivity].
  cbn [bind scan_assets]. rewrite Hname. cbn [bind].
  destruct (str_endswith name ".plugin"); [|reflexivity].
  destruct Hwhy as [Hend | Hnone]; [discriminate Hend |].
  now rewrite (MoreFacts.scan_platforms_idle _ _ _ _ Hnone).
Qed.

Lemma X6_witness :
  getitem checksum_asset "name" = Ok (PStr "node-linux-amd64.plugin.sha256") /\
  parse_plugin_release
    (release_record "plugin-node-v1.2.0" PNone PNone
                    ([node_asset] ++ checksum_asset :: []))
  = parse_plugin_release
      (release_record "plugin-node-v1.2.0" PNone PNone ([node_asset] ++ [])).
Proof.
  split; [reflexivity |].
  apply (X6_other_assets_do_not_count
           checksum_asset "node-linux-amd64.plugin.sha256");
    [reflexivity | left; reflexivity].
Defined.

(** X7: a listed release without the key [tagName] ends the run, whether it
    is a plugin release or not: when the releases listed before it have a
    string for tag, the generator prints [Error: 'tagName'] on standard
    output, prints no catalog and exits with status 1. *)
Theorem X7_release_without_tag_ends_the_run :
  forall json_loads json_dumps listing now before d after,
    returncode listing = 0%Z ->
    json_loads (stdout listing) = Ok (PList (before ++ PDict d :: after)) ->
    Forall (fun release => exists tag,
                getitem release "tagName" = Ok (PStr tag)) before ->
    dict_get d "tagName" = None ->
    main json_loads json_dumps (Ok listing) now
    = {| printed_stdout := "Error: 'tagName'" ++ newline;
         printed_stderr := "";
         exit_code := 1 |}.
Proof.
  intros json_loads json_dumps listing now before d after
         Hrc Hjson Hbefore Hd.
  unfold main.
  rewrite (LoopFacts.generate_catalog_listing _ _ _ _ Hrc Hjson).
  unfold pipeline. rewrite LoopFacts.filter_app.
  destruct (MoreFacts.filter_tagged before [] Hbefore) as (kept & ->).
  cbn [bind filter_releases getitem]. rewrite Hd. reflexivity.
Qed.

Lemma X7_witness :
  dict_get [("name", PStr "Draft"); ("assets", PList [])] "tagName" = None /\
  main (one_listing ([node_release] ++ untagged_release :: [vv_release]))
       show (Ok (ok_process "")) "2024-05-01T10:00:00"
  = {| printed_stdout := "Error: 'tagName'" ++ newline;
       printed_stderr := "";
       exit_code := 1 |}.
Proof.
  split; [reflexivity |].
  apply (X7_release_without_tag_ends_the_run
           (one_listing ([node_release] ++ untagged_release :: [vv_release]))
           show (ok_process "") "2024-05-01T10:00:00"
           [node_release] [("name", PStr "Draft"); ("assets", PList [])]
           [vv_release]); try reflexivity.
  constructor; [|constructor]. now exists "plugin-node-v1.2.0".
Defined.

(** X8: whenever [generate_catalog] returns, well-shaped listing or not, the
    listing command had exited with status 0, its output decoded to
    something iterable, and the catalog is the envelope (version [1.0],
    the time followed by [Z], the fixed base url) around the entries of the
    qualifying releases in listing order; there are never more plugins than
    listed releases. *)
Theorem X8_returned_catalog_is_sound :
  forall json_loads gh now catalog,
    generate_catalog json_loads gh now = Ok catalog ->
    exists listing releases items plugins,
      gh = Ok listing /\
      returncode listing = 0%Z /\
      json_loads (stdout listing) = Ok releases /\
      iter releases = Ok items /\
      catalog = catalog_of now plugins /\
      kept_in_order items plugins /\
      List.length plugins <= List.length items.
Proof.
  intros json_loads gh now catalog H.
  unfold generate_catalog, get_plugin_releases in H.
  destruct gh as [listing|e]; [|discriminate H]. cbn [bind] in H.
  destruct (returncode listing =? 0)%Z eqn:Hrc; [|discriminate H].
  cbn [negb] in H.
  destruct (json_loads (stdout listing)) as [releases|e] eqn:Hjson;
    [|discriminate H].
  cbn [bind] in H.
  destruct (iter releases) as [items|e] eqn:Hiter; [|discriminate H].
  cbn [bind] in H.
  destruct (filter_releases items []) as [kept|e] eqn:Hfilter;
    [|discriminate H].
  cbn [bind] in H.
  destruct (collect_plugins kept []) as [plugins|e] eqn:Hcollect;
    [|discriminate H].
  cbn [bind] in H. injection H as <-.
  destruct (MoreFacts.filter_inv _ _ _ Hfilter) as [-> Htags].
  destruct (MoreFacts.collect_inv _ _ _ Htags Hcollect) as (new & -> & Hk).
  exists listing, releases, items, new.
  apply Z.eqb_eq in Hrc.
  repeat split; try assumption; try reflexivity.
  now apply MoreFacts.kept_length.
Qed.

Lemma X8_witness :
  exists listing releases items plugins,
    Ok (ok_process "") = Ok listing /\
    returncode listing = 0%Z /\
    one_listing [docs_release; vv_release] (stdout listing) = Ok releases /\
    iter releases = Ok items /\
    catalog_of "2024-05-01T10:00:00" [PDict vv_entry]
    = catalog_of "2024-05-01T10:00:00" plugins /\
    kept_in_order items plugins /\
    List.length plugins <= List.length items.
Proof.
  apply (X8_returned_catalog_is_sound
           (one_listing [docs_release; vv_release])
           (Ok (ok_process "")) "2024-05-01T10:00:00"
           (catalog_of "2024-05-01T10:00:00" [PDict vv_entry])).
  reflexivity.
Defined.

(** X9: what follows the third dash-separated segment of the tag is not
    read: a tag of three segments or more, and the same tag followed by a
    dash and any text, give the same parse. *)
Theorem X9_tag_is_read_up_to_its_third_segment :
  forall tag extra parts body publishedAt assets,
    str_split tag "-" = Ok parts ->
    3 <= List.length parts ->
    parse_plugin_release
      (release_record (tag ++ "-" ++ extra) body publishedAt assets)
    = parse_plugin_release (release_record tag body publishedAt assets).
Proof.
  intros tag extra parts body publishedAt assets Hparts Hlen.
  rewrite !EntryFacts.parse_unfold.
  change (getitem (release_record (tag ++ "-" ++ extra) body publishedAt
                                  assets) "tagName")
    with (Ok (PStr (tag ++ "-" ++ extra))).
  change (getitem (release_record tag body publishedAt assets) "tagName")
    with (Ok (PStr tag)).
  cbn [bind split]. rewrite Hparts.
  unfold str_split in Hparts |- *. injection Hparts as Hparts.
  rewrite (SplitFacts.split_char_app "-" extra tag), Hparts.
  cbn [bind]. rewrite length_app.
  replace (List.length parts + _ <? 3)%nat with false
    by (symmetry; apply Nat.ltb_ge; lia).
  replace (List.length parts <? 3)%nat with false
    by (symmetry; apply Nat.ltb_ge; lia).
  unfold list_getitem.
  rewrite !nth_error_app1 by lia.
  destruct (nth_error parts 1) as [plugin_id|]; [|reflexivity].
  cbn [bind].
  destruct (nth_error parts 2) as [part2|]; reflexivity.
Qed.

Lemma X9_witness :
  str_split "plugin-node-v1.2.0" "-" = Ok ["plugin"; "node"; "v1.2.0"] /\
  parse_plugin_release
    (release_record ("plugin-node-v1.2.0" ++ "-" ++ "rc1-final")
                    PNone PNone [node_asset])
  = parse_plugin_release
      (release_record "plugin-node-v1.2.0" PNone PNone [node_asset]).
Proof.
  split; [reflexivity |].
  apply (X9_tag_is_read_up_to_its_third_segment
           "plugin-node-v1.2.0" "rc1-final" ["plugin"; "node"; "v1.2.0"]);
    [reflexivity | simpl; lia].
Defined.

(** X10: the tag that the converter names in [source.url],
    [plugin-<name>-v<version>], is read back by the generator: when name
    and version are strings without a dash and the version does not begin
    with [v], every entry parsed from a release with that tag has the
    manifest's name as id and the manifest's version as version. *)
Theorem X10_converter_tag_is_read_back :
  forall load_yaml format path now manifest metadata spec name version,
    (forall s, format (PStr s) = s) ->
    load_yaml path = Ok manifest ->
    get manifest "metadata" (PDict []) = Ok (PDict metadata) ->
    get manifest "spec" (PDict []) = Ok (PDict spec) ->
    dict_get metadata "name" = Some (PStr name) ->
    dict_get spec "version" = Some (PStr version) ->
    str_contains "-" name = false ->
    str_contains "-" version = false ->
    str_startswith version "v" = false ->
    exists entry,
      Manifest.convert_manifest load_yaml format path now = Ok (PDict entry) /\
      dict_get entry "source"
      = Some (PDict [("type", PStr "release");
                     ("url", PStr (release_page ++ release_tag name version))]) /\
      forall body publishedAt assets plugin,
        parse_plugin_release
          (release_record (release_tag name version) body publishedAt assets)
        = Ok (PDict plugin) ->
        dict_get plugin "id" = Some (PStr name) /\
        dict_get plugin "version" = Some (PStr version).
Proof.
  intros load_yaml format path now manifest metadata spec name version
         Hformat Hload Hmeta Hspec Hname Hversion Hfn Hfv Hv.
  unfold Manifest.convert_manifest.
  rewrite Hload. cbn [bind]. rewrite Hmeta. cbn [bind].
  rewrite Hspec. cbn [bind].
  repeat (rewrite ScanFacts.get_dict; cbn [bind]).
  rewrite Hname, Hversion, !Hformat.
  eexists. split; [reflexivity |]. split; [reflexivity |].
  intros body publishedAt assets plugin Hparse.
  destruct (ParseFacts.parse_inv _ _ Hparse)
    as (tag & parts & id & part2 & ? & ? & dl & desc & pub
        & Htag & Hparts & Hid & Hpart2 & _ & _ & _ & _ & _ & _ & ->).
  injection Htag as <-.
  assert (Hsplit : split_from "-" 0 (release_tag name version)
                   = ["plugin"; name; "v" ++ version]).
  { change (release_tag name version)
      with ("plugin" ++ "-" ++ name ++ "-" ++ "v" ++ version).
    rewrite !(SplitFacts.split_char_app "-").
    rewrite (SplitFacts.split_char_free "-" name Hfn).
    rewrite (SplitFacts.split_char_free "-" ("v" ++ version));
      [reflexivity | exact Hfv]. }
  unfold str_split in Hparts. rewrite Hsplit in Hparts.
  assert (Hp : parts = ["plugin"; name; "v" ++ version]) by congruence.
  clear Hparts.
  subst parts. injection Hid as <-. injection Hpart2 as <-.
  split; [reflexivity |].
  cbn [dict_get String.eqb Ascii.eqb Bool.eqb].
  change (str_lstrip (String "v" version) "v") with (str_lstrip version "v").
  now rewrite (SplitFacts.lstrip_fixed "v" version Hv).
Qed.

Lemma X10_witness :
  exists entry,
    Manifest.convert_manifest load_node format_str "plugin.yaml"
                              "2024-05-01T10:00:00"
    = Ok (PDict entry) /\
    dict_get entry "source"
    = Some (PDict [("type", PStr "release");
                   ("url", PStr (release_page ++ release_tag "node" "1.2.0"))]) /\
    forall body publishedAt assets plugin,
      parse_plugin_release
        (release_record (release_tag "node" "1.2.0") body publishedAt assets)
      = Ok (PDict plugin) ->
      dict_get plugin "id" = Some (PStr "node") /\
      dict_get plugin "version" = Some (PStr "1.2.0").
Proof.
  apply (X10_converter_tag_is_read_back
           load_node format_str "plugin.yaml" "2024-05-01T10:00:00"
           node_manifest node_metadata node_spec "node" "1.2.0");
    reflexivity.
Defined.

(** X11: the converter copies what [spec] holds as it is: a key of the
    copied list that is present keeps its value in the entry, null
    included and whatever its type, and a present [displayName] is the
    entry's name; the defaults serve absent keys only.  The id is
    [metadata.name], or null without it. *)
Theorem X11_present_fields_are_copied_verbatim :
  forall load_yaml format path now manifest metadata spec,
    load_yaml path = Ok manifest ->
    get manifest "metadata" (PDict []) = Ok (PDict metadata) ->
    get manifest "spec" (PDict []) = Ok (PDict spec) ->
    exists entry,
      Manifest.convert_manifest load_yaml format path now = Ok (PDict entry) /\
      dict_get entry "id"
      = Some (match dict_get metadata "name" with
              | Some name => name
              | None => PNone
              end) /\
      (forall v, dict_get spec "displayName" = Some v ->
                 dict_get entry "name" = Some v) /\
      (forall key v, In key copied_keys ->
                     dict_get spec key = Some v ->
                     dict_get entry key = Some v).
Proof.
  intros load_yaml format path now manifest metadata spec Hload Hmeta Hspec.
  unfold Manifest.convert_manifest.
  rewrite Hload. cbn [bind]. rewrite Hmeta. cbn [bind].
  rewrite Hspec. cbn [bind].
  repeat (rewrite ScanFacts.get_dict; cbn [bind]).
  eexists. split; [reflexivity |].
  split; [reflexivity |]. split.
  - intros v Hv. cbn [dict_get String.eqb Ascii.eqb Bool.eqb].
    now rewrite Hv.
  - intros key v Hin Hv. unfold copied_keys in Hin.
    repeat (destruct Hin as [<- | Hin];
            [cbn [dict_get String.eqb Ascii.eqb Bool.eqb]; now rewrite Hv |]).
    destruct Hin.
Qed.

Lemma X11_witness :
  exists entry,
    Manifest.convert_manifest load_node format_str "plugin.yaml"
                              "2024-05-01T10:00:00"
    = Ok (PDict entry) /\
    dict_get entry "id"
    = Some (match dict_get node_metadata "name" with
            | Some name => name
            | None => PNone
            end) /\
    (forall v, dict_get node_spec "displayName" = Some v ->
               dict_get entry "name" = Some v) /\
    (forall key v, In key copied_keys ->
                   dict_get node_spec key = Some v ->
                   dict_get entry key = Some v).
Proof.
  apply (X11_present_fields_are_copied_verbatim
           load_node format_str "plugin.yaml" "2024-05-01T10:00:00"
           node_manifest node_metadata node_spec); reflexivity.
Defined.



(** X13: the converter never mixes its streams.  With anything but one
    argument it prints the usage line on standard error and exits with
    status 1 without loading a file; in every case it exits with status 0
    or 1, status 1 comes with an empty standard output and a non-empty
    standard error, and status 0 comes with an empty standard error and the
    entry on standard output. *)
Theorem X13_converter_keeps_errors_off_stdout :
  forall load_yaml format json_dumps argv now,
    let outcome := Manifest.main load_yaml format json_dumps argv now in
    (List.length argv <> 2 ->
     outcome = {| printed_stdout := "";
                  printed_stderr := usage_line;
                  exit_code := 1 |}) /\
    ((exit_code outcome = 0%Z /\
      printed_stderr outcome = "" /\
      exists path entry,
        nth_error argv 1 = Some path /\
        Manifest.convert_manifest load_yaml format path now = Ok entry /\
        printed_stdout outcome = json_dumps entry ++ newline) \/
     (exit_code outcome = 1%Z /\
      printed_stdout outcome = "" /\
      printed_stderr outcome <> "")).
Proof.
  intros load_yaml format json_dumps argv now outcome. subst outcome.
  unfold Manifest.main.
  destruct argv as [|program [|path [|extra argv]]];
    try (split; [reflexivity | right; repeat split; discriminate]).
  split; [simpl; congruence |].
  destruct (Manifest.convert_manifest load_yaml format path now)
    as [entry|e] eqn:Hconvert.
  - left. repeat split. exists path, entry. repeat split. exact Hconvert.
  - right. repeat split. discriminate.
Qed.

(** X14: parsing reads four keys of a release and nothing else: two
    releases that agree on [tagName], [assets], [body] and [publishedAt]
    parse alike, whatever their other fields (the release's own [name] is
    not read). *)
Theorem X14_parse_reads_four_keys :
  forall d d',
    (forall key, In key release_keys -> dict_get d key = dict_get d' key) ->
    parse_plugin_release (PDict d) = parse_plugin_release (PDict d').
Proof.
  intros d d' Hsame.
  assert (Htag : dict_get d "tagName" = dict_get d' "tagName")
    by (apply Hsame; simpl; auto).
  assert (Hassets : dict_get d "assets" = dict_get d' "assets")
    by (apply Hsame; simpl; auto).
  assert (Hbody : dict_get d "body" = dict_get d' "body")
    by (apply Hsame; simpl; auto).
  assert (Hpub : dict_get d "publishedAt" = dict_get d' "publishedAt")
    by (apply Hsame; simpl; auto 6).
  apply EntryFacts.parse_congr.
  - unfold getitem. now rewrite Htag.
  - unfold scanned, get. now rewrite Hassets.
  - unfold description_of, get. now rewrite Hbody.
  - unfold get. now rewrite Hpub.
Qed.

Lemma X14_witness :
  parse_plugin_release (PDict titled_release)
  = parse_plugin_release (PDict plain_release).
Proof.
  apply (X14_parse_reads_four_keys titled_release plain_release).
  intros key [<- | [<- | [<- | [<- | []]]]]; reflexivity.
Defined.

Lemma X13_witness :
  Manifest.main load_bare format_str show ["convert-plugin-manifest.py"]
                "2024-05-01T10:00:00"
  = {| printed_stdout := "";
       printed_stderr := usage_line;
       exit_code := 1 |}.
Proof.
  apply (proj1 (X13_converter_keeps_errors_off_stdout
                  load_bare format_str show ["convert-plugin-manifest.py"]
                  "2024-05-01T10:00:00")).
  simpl. lia.
Defined.

(** X15: a well-shaped release parses to nothing exactly when its tag has
    fewer than three dash-separated segments or none of its assets has a
    name that ends with [.plugin] and contains a platform key; in every
    other case it parses to an entry. *)
Theorem X15_entry_exactly_when_tag_and_asset_match :
  forall release tag parts items,
    release_shape release = true ->
    getitem release "tagName" = Ok (PStr tag) ->
    str_split tag "-" = Ok parts ->
    (assets <- get release "assets" (PList []);; iter assets) = Ok items ->
    (parse_plugin_release release = Ok PNone <->
     (List.length parts < 3 \/
      forall platform, In platform platforms ->
                       last_match platform items = None)).
Proof.
  intros release tag parts items Hshape Htag Hparts Hitems.
  destruct (Totality.release_shape_inv _ Hshape)
    as (d & tag' & -> & _ & Hbody & _ & Has).
  destruct (Totality.assets_total d Has)
    as (items' & downloads & Hitems' & Hshapes & Hscan).
  rewrite Hitems in Hitems'. injection Hitems' as <-.
  destruct (ScanFacts.scan_assets_spec items [] Hshapes)
    as (downloads' & Hscan' & Hget).
  rewrite Hscan in Hscan'. injection Hscan' as <-.
  assert (Hscanned : scanned (PDict d) = Ok downloads).
  { unfold scanned. unfold bind at 1 in Hitems.
    destruct (get (PDict d) "assets" (PList [])) as [assets|];
      [|discriminate Hitems].
    cbn [bind]. rewrite Hitems. exact Hscan. }
  assert (Hempty : downloads = [] <->
                   forall platform, In platform platforms ->
                                    last_match platform items = None).
  { split.
    - intros -> platform Hin. specialize (Hget platform).
      cbn [dict_get] in Hget. unfold slot, recorded in Hget.
      replace (is_platform platforms platform) with true in Hget.
      + destruct (last_match platform items) as [asset|] eqn:Hlast;
          [|reflexivity].
        apply ScanFacts.last_match_In in Hlast.
        rewrite forallb_forall in Hshapes.
        destruct (ScanFacts.asset_shape_inv _ (Hshapes _ Hlast))
          as (n & u & _ & Hentry).
        rewrite Hentry in Hget. discriminate Hget.
      + symmetry. apply existsb_exists. exists platform.
        split; [exact Hin | apply String.eqb_refl].
    - intros Hnone. destruct downloads as [|[key v] downloads];
        [reflexivity |].
      specialize (Hget key). cbn [dict_get] in Hget.
      rewrite String.eqb_refl in Hget. unfold slot, recorded in Hget.
      destruct (is_platform platforms key) eqn:Hkey; [|discriminate Hget].
      apply existsb_exists in Hkey as (platform & Hin & Heq).
      apply String.eqb_eq in Heq. subst platform.
      rewrite (Hnone key Hin) in Hget. discriminate Hget. }
  rewrite EntryFacts.parse_unfold, Htag. cbn [bind split]. rewrite Hparts.
  cbn [bind].
  destruct (List.length parts <? 3)%nat eqn:Hlen.
  - apply Nat.ltb_lt in Hlen. split; [now left | reflexivity].
  - apply Nat.ltb_ge in Hlen.
    destruct parts as [|p0 [|p1 [|p2 parts]]]; simpl in Hlen; try lia.
    cbn [list_getitem nth_error bind]. unfold build_entry.
    rewrite Hscanned. cbn [bind].
    destruct downloads as [|kv downloads].
    + cbn [truthy negb]. split; [intros _; right; now apply Hempty |].
      reflexivity.
    + cbn [truthy negb].
      destruct (Totality.description_total d Hbody) as (text & ->).
      cbn [bind]. rewrite ScanFacts.get_dict. cbn [bind].
      split; [discriminate |].
      intros [Hshort | Hnone]; [simpl in Hshort; lia |].
      apply Hempty in Hnone. discriminate Hnone.
Qed.

Lemma X15_witness :
  release_shape text_only_release = true /\
  (parse_plugin_release text_only_release = Ok PNone <->
   (List.length ["plugin"; "bar"; "v2.0.0"] < 3 \/
    forall platform, In platform platforms ->
                     last_match platform [asset_record "bar.txt" "u"] = None)).
Proof.
  split; [reflexivity |].
  apply (X15_entry_exactly_when_tag_and_asset_match
           text_only_release "plugin-bar-v2.0.0" ["plugin"; "bar"; "v2.0.0"]
           [asset_record "bar.txt" "u"]); reflexivity.
Defined.

(* ================================================================= *)
(** ** Listings side by side *)

Module ListingFacts.
Import Py Catalog Spec.
Local Open Scope list_scope.

Lemma collect_acc (l : list pyval) :
  forall acc,
    collect_plugins l acc
    = (new <- collect_plugins l [];; Ok (acc ++ new)).
Proof.
  induction l as [|r l IH]; intros acc.
  - cbn. now rewrite app_nil_r.
  - cbn [collect_plugins].
    destruct (parse_plugin_release r) as [plugin|e]; [|reflexivity].
    cbn [bind]. destruct (truthy plugin); [|apply IH].
    rewrite (IH (acc ++ [plugin])), (IH ([] ++ [plugin])).
    destruct (collect_plugins l []) as [new|e]; [|reflexivity].
    cbn [bind app]. now rewrite <- app_assoc.
Qed.

(** The plugins of two listings put end to end. *)
Lemma pipeline_app (l1 l2 ps1 ps2 : list pyval) :
  pipeline l1 = Ok ps1 ->
  pipeline l2 = Ok ps2 ->
  pipeline (l1 ++ l2) = Ok (ps1 ++ ps2).
Proof.
  unfold pipeline. intros H1 H2.
  rewrite LoopFacts.filter_app.
  destruct (filter_releases l1 []) as [k1|e]; [|discriminate H1].
  cbn [bind] in H1 |- *. rewrite LoopFacts.filter_acc.
  destruct (filter_releases l2 []) as [k2|e]; [|discriminate H2].
  cbn [bind] in H2 |- *. rewrite LoopFacts.collect_app, H1. cbn [bind].
  rewrite collect_acc, H2. reflexivity.
Qed.

End ListingFacts.

(** X16: when the listing command exits with a status other than 0, its
    output is not decoded: for every such status, output and diagnostic the
    generator prints [Error: Failed to get releases: ] followed by the
    diagnostic on standard output, prints nothing on standard error and
    exits with status 1. *)
Theorem X16_failed_listing_is_not_decoded :
  forall json_loads json_dumps listing now,
    returncode listing <> 0%Z ->
    main json_loads json_dumps (Ok listing) now
    = {| printed_stdout :=
           "Error: Failed to get releases: " ++ stderr listing ++ newline;
         printed_stderr := "";
         exit_code := 1 |}.
Proof.
  intros json_loads json_dumps listing now Hrc.
  unfold main, generate_catalog, get_plugin_releases. cbn [bind].
  apply Z.eqb_neq in Hrc. rewrite Hrc. reflexivity.
Qed.

Lemma X16_witness :
  main (one_listing [node_release]) show
       (Ok {| returncode := 4;
              stdout := "[]";
              stderr := "HTTP 401: Bad credentials" |})
       "2024-05-01T10:00:00"
  = {| printed_stdout :=
         "Error: Failed to get releases: " ++ "HTTP 401: Bad credentials"
           ++ newline;
       printed_stderr := "";
       exit_code := 1 |}.
Proof.
  apply (X16_failed_listing_is_not_decoded
           (one_listing [node_release]) show
           {| returncode := 4;
              stdout := "[]";
              stderr := "HTTP 401: Bad credentials" |}).
  discriminate.
Defined.

(** X17: releases are parsed one by one and nothing is merged: when two
    listings each give a catalog, the listing made of the first followed by
    the second gives the catalog whose plugins are those of the first
    followed by those of the second, so a plugin id released twice is
    listed twice. *)
Theorem X17_listings_put_end_to_end :
  forall json_loads first_ second both now l1 l2 c1 c2,
    returncode first_ = 0%Z ->
    returncode second = 0%Z ->
    returncode both = 0%Z ->
    json_loads (stdout first_) = Ok (PList l1) ->
    json_loads (stdout second) = Ok (PList l2) ->
    json_loads (stdout both) = Ok (PList (l1 ++ l2)) ->
    generate_catalog json_loads (Ok first_) now = Ok c1 ->
    generate_catalog json_loads (Ok second) now = Ok c2 ->
    exists ps1 ps2,
      c1 = catalog_of now ps1 /\
      c2 = catalog_of now ps2 /\
      generate_catalog json_loads (Ok both) now
      = Ok (catalog_of now (ps1 ++ ps2)).
Proof.
  intros json_loads first_ second both now l1 l2 c1 c2
         Hrc1 Hrc2 Hrc Hj1 Hj2 Hj H1 H2.
  rewrite (LoopFacts.generate_catalog_listing _ _ _ _ Hrc1 Hj1) in H1.
  rewrite (LoopFacts.generate_catalog_listing _ _ _ _ Hrc2 Hj2) in H2.
  rewrite (LoopFacts.generate_catalog_listing _ _ _ _ Hrc Hj).
  destruct (pipeline l1) as [ps1|e] eqn:E1; [|discriminate H1].
  destruct (pipeline l2) as [ps2|e] eqn:E2; [|discriminate H2].
  cbn [bind] in H1, H2. injection H1 as <-. injection H2 as <-.
  exists ps1, ps2.
  rewrite (ListingFacts.pipeline_app _ _ _ _ E1 E2).
  now repeat split.
Qed.

Lemma X17_witness :
  exists ps1 ps2,
    catalog_of "2024-05-01T10:00:00" [PDict vv_entry]
    = catalog_of "2024-05-01T10:00:00" ps1 /\
    catalog_of "2024-05-01T10:00:00" [PDict vv_entry]
    = catalog_of "2024-05-01T10:00:00" ps2 /\
    generate_catalog
      (two_listings ([vv_release] ++ [vv_release]) [vv_release])
      (Ok (ok_process "full")) "2024-05-01T10:00:00"
    = Ok (catalog_of "2024-05-01T10:00:00" (ps1 ++ ps2)).
Proof.
  apply (X17_listings_put_end_to_end
           (two_listings ([vv_release] ++ [vv_release]) [vv_release])
           (ok_process "rest") (ok_process "rest") (ok_process "full")
           "2024-05-01T10:00:00" [vv_release] [vv_release]);
    reflexivity.
Defined.
